(** * Tangle detection in the LLTC4J export scripts

    A shallow embedding of [list_tangled_commits.py] and
    [list_tangled_lines.py], and the properties of their tangle detectors,
    file filters and commit selectors.

    Python values are modelled as follows.
    - [str] is [string]; a character of [string] stands for one code point
      below 256.
    - [int] is [Z].
    - A [dict] that is iterated ([Hunk.lines_verified]) is an association list
      in iteration order; a [dict] that is only probed ([Commit.labels]) is a
      [gmap].
    - A [set] is a [gset].
    - Printing, database access and exceptions are explicit: a computation is
      a trace of events together with a value or a raised exception. *)

From Stdlib Require Import ZArith Ascii String.
From stdpp Require Import base list strings gmap.

Local Open Scope string_scope.
Local Open Scope list_scope.
Local Open Scope Z_scope.

(** ** Python built-ins used by the scripts *)

Module Python.

(** The exceptions the scripts can meet. *)
Inductive exn : Type :=
| IndexError
| MemoryError
| DoesNotExist
| MultipleObjectsReturned
| ValidationError
| ValueError (msg : string).

Inductive outcome (A : Type) : Type :=
| Ok (a : A)
| Raise (e : exn).
Global Arguments Ok {A} a.
Global Arguments Raise {A} e.

(** [s.startswith(p)] *)
Fixpoint startswith (s p : string) : bool :=
  match p, s with
  | EmptyString, _ => true
  | String _ _, EmptyString => false
  | String a p', String b s' => if Ascii.eqb a b then startswith s' p' else false
  end.

(** [sub in s] for two strings: [sub] starts at some position of [s]. *)
Fixpoint contains (sub s : string) : bool :=
  startswith s sub ||
  match s with
  | EmptyString => false
  | String _ s' => contains sub s'
  end.

(** [s.endswith(suffix)] *)
Definition endswith (s suffix : string) : bool :=
  let n := String.length s in
  let m := String.length suffix in
  if (m <=? n)%nat then String.eqb (substring (n - m) m s) suffix else false.

(** The line boundaries of [str.splitlines] among the code points below
    256: LF, VT, FF, CR, FS, GS, RS and NEL. *)
Definition is_linebreak (c : ascii) : bool :=
  let n := nat_of_ascii c in
  ((10 <=? n) && (n <=? 13) || (28 <=? n) && (n <=? 30) || (n =? 133))%nat.

Definition is_CR (c : ascii) : bool := (nat_of_ascii c =? 13)%nat.
Definition is_LF (c : ascii) : bool := (nat_of_ascii c =? 10)%nat.

(** [str.splitlines()]: [cur] is the part of the current line read so far,
    as a list of its characters in reverse. A line is emitted at each
    boundary (CR LF counting as one), and at the end of the string when
    characters remain. *)
Fixpoint splitlines_from (cur : list ascii) (s : string) : list string :=
  match s with
  | EmptyString =>
      match cur with
      | [] => []
      | _ => [string_of_list_ascii (rev cur)]
      end
  | String c rest =>
      if is_linebreak c then
        string_of_list_ascii (rev cur) ::
          (if is_CR c then
             match rest with
             | String c' rest' =>
                 if is_LF c' then splitlines_from [] rest'
                 else splitlines_from [] rest
             | EmptyString => splitlines_from [] rest
             end
           else splitlines_from [] rest)
      else splitlines_from (c :: cur) rest
  end.

Definition splitlines (s : string) : list string := splitlines_from [] s.

(** The position a Python [list] reads or writes for the index [i]:
    a negative index counts from the end; [None] is [IndexError]. *)
Definition list_index {A : Type} (l : list A) (i : Z) : option nat :=
  let n := Z.of_nat (length l) in
  let j := if i <? 0 then i + n else i in
  if (j <? 0) || (n <=? j) then None else Some (Z.to_nat j).

(** [list.__getitem__(l, i)] *)
Definition list_getitem {A : Type} (l : list A) (i : Z) : outcome A :=
  match list_index l i with
  | Some k =>
      match l !! k with
      | Some x => Ok x
      | None => Raise IndexError
      end
  | None => Raise IndexError
  end.

(** [list.__setitem__(l, i, x)] *)
Definition list_setitem {A : Type} (l : list A) (i : Z) (x : A)
  : outcome (list A) :=
  match list_index l i with
  | Some k => Ok (<[k := x]> l)
  | None => Raise IndexError
  end.

(** Truth value of an element of [line_labels]: [None] and the empty
    string are false, every other string is true. *)
Definition truthy (v : option string) : bool :=
  match v with
  | None => false
  | Some EmptyString => false
  | Some (String _ _) => true
  end.

End Python.
Export Python.

(** ** The [defaultlist] package

    A third-party package, imported by both scripts. [defaultlist()] is a
    [list] whose [__getitem__] and [__setitem__] first extend it with [None]
    up to the requested index:
    [missing = index - len(self) + 1; if missing > 0: self += [None] * missing],
    and then defer to [list]. A negative index extends nothing, and is an
    [IndexError] when the list is shorter than it reaches back.

    [fill], [getitem] and [setitem] are the package with memory without
    limit: the list grows to any index. [fill_within], [getitem_within] and
    [setitem_within] make the limit explicit: [capacity] is the number of
    elements up to which the interpreter can grow the list, and growing it
    further ends with [MemoryError]. The two agree on every index below
    [capacity]. *)

Module DefaultList.

Abbreviation defaultlist := (list (option string)).

Definition fill (l : defaultlist) (index : Z) : defaultlist :=
  let missing := index - Z.of_nat (length l) + 1 in
  if 0 <? missing then l ++ replicate (Z.to_nat missing) None else l.

(** [l[index]]: the value read (or the exception) and the extended list. *)
Definition getitem (l : defaultlist) (index : Z)
  : outcome (option string) * defaultlist :=
  let l' := fill l index in (list_getitem l' index, l').

(** [l[index] = value] *)
Definition setitem (l : defaultlist) (index : Z) (value : string)
  : outcome defaultlist :=
  list_setitem (fill l index) index (Some value).

(** [__fill] when the list can hold [capacity] elements and no more. *)
Definition fill_within (capacity : Z) (l : defaultlist) (index : Z)
  : outcome defaultlist :=
  let missing := index - Z.of_nat (length l) + 1 in
  if 0 <? missing then
    if index <? capacity then Ok (l ++ replicate (Z.to_nat missing) None)
    else Raise MemoryError
  else Ok l.

(** [l[index]]: the value read and the extended list, or the exception. *)
Definition getitem_within (capacity : Z) (l : defaultlist) (index : Z)
  : outcome (option string * defaultlist) :=
  match fill_within capacity l index with
  | Ok l' =>
      match list_getitem l' index with
      | Ok v => Ok (v, l')
      | Raise e => Raise e
      end
  | Raise e => Raise e
  end.

(** [l[index] = value] *)
Definition setitem_within (capacity : Z) (l : defaultlist) (index : Z)
    (value : string) : outcome defaultlist :=
  match fill_within capacity l index with
  | Ok l' => list_setitem l' index (Some value)
  | Raise e => Raise e
  end.

End DefaultList.

(** ** The dataset: [pycoshark.mongomodels]

    Each collection is the list of its documents in the order a query
    enumerates them. *)

Module Dataset.

Definition ObjectId : Type := N.

Record Project : Type := {
  Project_id : ObjectId;
  name : string
}.

Record VCSSystem : Type := {
  VCSSystem_id : ObjectId;
  project_id : ObjectId
}.

Record Commit : Type := {
  Commit_id : ObjectId;
  vcs_system_id : ObjectId;
  revision_hash : string;
  labels : option (gmap string bool);
  parents : list string
}.

Record FileAction : Type := {
  FileAction_id : ObjectId;
  commit_id : ObjectId;
  file_id : option ObjectId;
  old_file_id : option ObjectId;
  mode : string
}.

Record File : Type := {
  File_id : ObjectId;
  path : string
}.

Record Hunk : Type := {
  file_action_id : ObjectId;
  content : string;
  lines_verified : list (string * list Z)
}.

Record Database : Type := {
  Project_objects : list Project;
  VCSSystem_objects : list VCSSystem;
  Commit_objects : list Commit;
  FileAction_objects : list FileAction;
  File_objects : list File;
  Hunk_objects : list Hunk
}.

Inductive query : Type :=
| Project_name_in (names : list string)
| VCSSystem_project_id (id : ObjectId)
| Commit_vcs_system_id (id : ObjectId)
| FileAction_commit_id (id : ObjectId)
| File_by_id (id : option ObjectId)
| Hunk_file_action_id (id : ObjectId).

End Dataset.
Export Dataset.

(** ** Computations with a trace *)

Module Effects.

(** What the scripts print, one constructor per format string. *)
Inductive message : Type :=
| TangledLineIn (commit_hash line : string)
    (* f"Tangled line in {commit_hash}: {hunk_content_by_line[i]}" *)
| FoundLabel (first : option string) (second : string)
    (* f"Found label {line_labels[i]} and {label}" *)
| LineHasLabel (i : Z) (label : string) (owner : option string)
    (* f"Line {i} has label {label}, content: {line_labels[i]}" *)
| Blank
    (* print() *)
| ProcessingProject (project : string)
    (* f"Processing project {project.name}", on stderr *)
| ProjectCommit (project commit_hash : string).
    (* f"{project} {commit_hash}" *)

Inductive event : Type :=
| Stdout (m : message)
| Stderr (m : message)
| Connect
| Read (q : query).

Definition Py (A : Type) : Type := list event * outcome A.

Definition ret {A : Type} (a : A) : Py A := ([], Ok a).

Definition raise {A : Type} (e : exn) : Py A := ([], Raise e).

Definition emit (e : event) : Py unit := ([e], Ok tt).

Definition lift {A : Type} (o : outcome A) : Py A := ([], o).

Definition bind {A B : Type} (m : Py A) (k : A -> Py B) : Py B :=
  match m with
  | (t, Ok a) => let (t', r) := k a in (t ++ t', r)
  | (t, Raise e) => (t, Raise e)
  end.

Definition print (m : message) : Py unit := emit (Stdout m).

(** [Collection.objects(...)]: the query is recorded, the matching
    documents are returned in enumeration order. *)
Definition objects {D : Type} (q : query) (matching : D -> bool)
    (collection : list D) : Py (list D) :=
  bind (emit (Read q)) (fun _ => ret (List.filter matching collection)).

(** [QuerySet.get()] *)
Definition get {D : Type} (found : list D) : Py D :=
  match found with
  | [] => raise DoesNotExist
  | [d] => ret d
  | _ :: _ :: _ => raise MultipleObjectsReturned
  end.

(** What a [for] loop body tells its loop: go on with the next element,
    or leave the function with a value. *)
Inductive flow (S R : Type) : Type :=
| Continue (s : S)
| Return (r : R).
Global Arguments Continue {S R} s.
Global Arguments Return {S R} r.

End Effects.
Export Effects.

Declare Scope py_scope.
Delimit Scope py_scope with py.
Notation "x <- m ;; k" := (bind m (fun x => k))
  (at level 20, m at level 99, k at level 200, only parsing) : py_scope.
Notation "'do' m ;; k" := (bind m (fun _ => k))
  (at level 20, m at level 99, k at level 200, only parsing) : py_scope.
Local Open Scope py_scope.

(** ** [list_tangled_commits.py] *)

Module ListTangledCommits.

Import DefaultList.

Section Script.

(** Imported from [export_lltc4j], which is not among the two scripts:
    the project names and the three label collections. Only membership
    ([in]) is used on them. *)
Variable PROJECTS : list string.
Variables LINE_LABELS_CODE LINE_LABELS_CODE_FIX LINE_LABELS_CODE_NO_FIX
  : list string.

(** The body of [for i in offset_line_numbers]. The line to print is looked
    up before anything is printed; the second [print] reads [line_labels[i]]
    again, which is still [owner]. *)
Fixpoint scan_offsets (commit_hash : string)
    (hunk_content_by_line : list string) (label : string)
    (offset_line_numbers : list Z) (line_labels : defaultlist)
  : Py (flow defaultlist bool) :=
  match offset_line_numbers with
  | [] => ret (Continue line_labels)
  | i :: rest =>
      let (owner, line_labels) := getitem line_labels i in
      owner <- lift owner ;;
      if truthy owner then
        line <- lift (list_getitem hunk_content_by_line i) ;;
        do print (TangledLineIn commit_hash line) ;;
        do print (FoundLabel owner label) ;;
        ret (Return true)
      else
        line_labels <- lift (setitem line_labels i label) ;;
        scan_offsets commit_hash hunk_content_by_line label rest line_labels
  end.

(** The body of [for label, offset_line_numbers in hunk.lines_verified.items()]. *)
Fixpoint scan_labels (commit_hash : string)
    (hunk_content_by_line : list string)
    (items : list (string * list Z)) (line_labels : defaultlist)
  : Py (flow defaultlist bool) :=
  match items with
  | [] => ret (Continue line_labels)
  | (label, offset_line_numbers) :: rest =>
      r <- scan_offsets commit_hash hunk_content_by_line label
             offset_line_numbers line_labels ;;
      match r with
      | Continue line_labels =>
          scan_labels commit_hash hunk_content_by_line rest line_labels
      | Return b => ret (Return b)
      end
  end.

Fixpoint has_tangled_lines (hunks : list Hunk) (commit_hash : string)
  : Py bool :=
  match hunks with
  | [] => ret false
  | hunk :: rest =>
      let hunk_content_by_line := splitlines (content hunk) in
      let line_labels : defaultlist := [] in
      r <- scan_labels commit_hash hunk_content_by_line
             (lines_verified hunk) line_labels ;;
      match r with
      | Continue _ => has_tangled_lines rest commit_hash
      | Return b => ret b
      end
  end.

(** [has_tangled_lines] and its two loops when [line_labels] can hold
    [capacity] elements and no more. *)
Fixpoint scan_offsets_within (capacity : Z) (commit_hash : string)
    (hunk_content_by_line : list string) (label : string)
    (offset_line_numbers : list Z) (line_labels : defaultlist)
  : Py (flow defaultlist bool) :=
  match offset_line_numbers with
  | [] => ret (Continue line_labels)
  | i :: rest =>
      got <- lift (getitem_within capacity line_labels i) ;;
      let (owner, line_labels) := (got : option string * defaultlist) in
      if truthy owner then
        line <- lift (list_getitem hunk_content_by_line i) ;;
        do print (TangledLineIn commit_hash line) ;;
        do print (FoundLabel owner label) ;;
        ret (Return true)
      else
        line_labels <- lift (setitem_within capacity line_labels i label) ;;
        scan_offsets_within capacity commit_hash hunk_content_by_line label
          rest line_labels
  end.

Fixpoint scan_labels_within (capacity : Z) (commit_hash : string)
    (hunk_content_by_line : list string)
    (items : list (string * list Z)) (line_labels : defaultlist)
  : Py (flow defaultlist bool) :=
  match items with
  | [] => ret (Continue line_labels)
  | (label, offset_line_numbers) :: rest =>
      r <- scan_offsets_within capacity commit_hash hunk_content_by_line
             label offset_line_numbers line_labels ;;
      match r with
      | Continue line_labels =>
          scan_labels_within capacity commit_hash hunk_content_by_line rest
            line_labels
      | Return b => ret (Return b)
      end
  end.

Fixpoint has_tangled_lines_within (capacity : Z) (hunks : list Hunk)
    (commit_hash : string) : Py bool :=
  match hunks with
  | [] => ret false
  | hunk :: rest =>
      let hunk_content_by_line := splitlines (content hunk) in
      let line_labels : defaultlist := [] in
      r <- scan_labels_within capacity commit_hash hunk_content_by_line
             (lines_verified hunk) line_labels ;;
      match r with
      | Continue _ => has_tangled_lines_within capacity rest commit_hash
      | Return b => ret b
      end
  end.

(** The body of [for label, _ in hunk.lines_verified.items()]. *)
Fixpoint scan_hunk_labels (items : list (string * list Z))
    (seen_labels : gset string) : flow (gset string) bool :=
  match items with
  | [] => Continue seen_labels
  | (label, _) :: rest =>
      if negb (bool_decide (label ∈ LINE_LABELS_CODE)) then
        scan_hunk_labels rest seen_labels
      else
        let seen_labels :=
          if bool_decide (label ∈ LINE_LABELS_CODE_FIX) then
            seen_labels ∪ {["fix"]}
          else if bool_decide (label ∈ LINE_LABELS_CODE_NO_FIX) then
            seen_labels ∪ {["nofix"]}
          else seen_labels in
        if (size seen_labels =? 2)%nat then Return true
        else scan_hunk_labels rest seen_labels
  end.

Fixpoint has_tangled_hunks (hunks : list Hunk) (commit_hash : string)
  : bool :=
  match hunks with
  | [] => false
  | hunk :: rest =>
      match scan_hunk_labels (lines_verified hunk) ∅ with
      | Continue _ => has_tangled_hunks rest commit_hash
      | Return b => b
      end
  end.

Definition is_java_file (file : File) : bool :=
  endswith (path file) ".java".

Definition is_test_file (file : File) : bool :=
  contains "test/" (path file)
  || contains "tests/" (path file)
  || endswith (path file) "Test.java"
  || endswith (path file) "Tests.java".

(** [File.objects(id=id).get()]. An [id] that is [None] is no [ObjectId]:
    the field rejects it with [ValidationError] when the query is built,
    before the collection is read. *)
Definition File_get (db : Database) (id : option ObjectId) : Py File :=
  match id with
  | None => raise ValidationError
  | Some _ =>
      found <- objects (File_by_id id)
                 (fun f => bool_decide (Some (File_id f) = id))
                 (File_objects db) ;;
      get found
  end.

Definition get_changed_file (db : Database) (fa : FileAction) : Py File :=
  match file_id fa with
  | Some _ => File_get db (file_id fa)
  | None => File_get db (old_file_id fa)
  end.

(** The body of [for fa in FileAction.objects(commit_id=commit.id)];
    [None] is the value of a call that ends without [return]. *)
Fixpoint scan_file_actions (db : Database) (commit : Commit)
    (tangle_func : list Hunk -> string -> Py bool)
    (file_actions : list FileAction) : Py (option bool) :=
  match file_actions with
  | [] => ret None
  | fa :: rest =>
      file <- get_changed_file db fa ;;
      if negb (is_java_file file) || is_test_file file then
        scan_file_actions db commit tangle_func rest
      else
        hunks <- objects (Hunk_file_action_id (FileAction_id fa))
                   (fun h => bool_decide (file_action_id h = FileAction_id fa))
                   (Hunk_objects db) ;;
        b <- tangle_func hunks (revision_hash commit) ;;
        ret (Some b)
  end.

(** The condition of [is_commit_tangled]; the lookup
    [commit.labels["validated_bugfix"]] is reached only when the key is
    present. *)
Definition validated_bugfix_with_one_parent (commit : Commit) : bool :=
  match labels commit with
  | Some d =>
      bool_decide ("validated_bugfix" ∈ dom d)
      && default false (d !! "validated_bugfix")
      && (length (parents commit) =? 1)%nat
  | None => false
  end.

Definition is_commit_tangled (db : Database) (commit : Commit)
    (tangle_func : list Hunk -> string -> Py bool) : Py (option bool) :=
  if validated_bugfix_with_one_parent commit then
    file_actions <- objects (FileAction_commit_id (Commit_id commit))
                      (fun fa => bool_decide (commit_id fa = Commit_id commit))
                      (FileAction_objects db) ;;
    scan_file_actions db commit tangle_func file_actions
  else ret (Some false).

(** Truth value of what [is_commit_tangled] returns. *)
Definition is_true (r : option bool) : bool := default false r.

(** The body of [for commit in Commit.objects(vcs_system_id=vcs_system.id)]. *)
Fixpoint scan_commits (db : Database)
    (tangle_func : list Hunk -> string -> Py bool) (project : Project)
    (commits : list Commit) (tangled_commits : list (string * string))
  : Py (list (string * string)) :=
  match commits with
  | [] => ret tangled_commits
  | commit :: rest =>
      r <- is_commit_tangled db commit tangle_func ;;
      scan_commits db tangle_func project rest
        (if is_true r then
           tangled_commits ++ [(name project, revision_hash commit)]
         else tangled_commits)
  end.

(** The body of [for project in Project.objects(name__in=PROJECTS)]. *)
Fixpoint scan_projects (db : Database)
    (tangle_func : list Hunk -> string -> Py bool)
    (projects : list Project) (tangled_commits : list (string * string))
  : Py (list (string * string)) :=
  match projects with
  | [] => ret tangled_commits
  | project :: rest =>
      found <- objects (VCSSystem_project_id (Project_id project))
                 (fun v => bool_decide (project_id v = Project_id project))
                 (VCSSystem_objects db) ;;
      vcs_system <- get found ;;
      commits <- objects (Commit_vcs_system_id (VCSSystem_id vcs_system))
                   (fun c => bool_decide (vcs_system_id c = VCSSystem_id vcs_system))
                   (Commit_objects db) ;;
      tangled_commits <- scan_commits db tangle_func project commits
                           tangled_commits ;;
      scan_projects db tangle_func rest tangled_commits
  end.

(** [connect_to_db()], imported from [export_lltc4j]: recorded as the
    first access to the dataset. It is taken to print nothing and to
    return. *)
Definition connect_to_db : Py unit := emit Connect.

Definition find_tangled_commits (db : Database) (tangle_granularity : string)
  : Py (list (string * string)) :=
  tangle_func <-
    (if String.eqb tangle_granularity "hunk" then
       ret (fun hunks commit_hash => ret (has_tangled_hunks hunks commit_hash))
     else if String.eqb tangle_granularity "line" then
       ret has_tangled_lines
     else
       raise (ValueError ("Unknown tangle granularity: " ++ tangle_granularity))) ;;
  do connect_to_db ;;
  projects <- objects (Project_name_in PROJECTS)
                (fun p => bool_decide (name p ∈ PROJECTS))
                (Project_objects db) ;;
  scan_projects db tangle_func projects [].

(** [for project, commit_hash in tangled_commits: print(...)] *)
Fixpoint print_tangled_commits (tangled_commits : list (string * string))
  : Py unit :=
  match tangled_commits with
  | [] => ret tt
  | (project, commit_hash) :: rest =>
      do print (ProjectCommit project commit_hash) ;;
      print_tangled_commits rest
  end.

(** [main] from the point where [parse_args] has returned;
    [tangle_granularity] is [args.tangle_granularity]. *)
Definition main (db : Database) (tangle_granularity : string) : Py unit :=
  tangled_commits <- find_tangled_commits db tangle_granularity ;;
  print_tangled_commits tangled_commits.

End Script.

End ListTangledCommits.

(** ** [list_tangled_lines.py] *)

Module ListTangledLines.

Import DefaultList.

Section Script.

(** Imported from [export_lltc4j]. *)
Variable PROJECTS : list string.

(** The body of [for i in offset_line_numbers]. The first [print] reads
    [line_labels[i]] and so extends the list before the test does. *)
Fixpoint scan_offsets (commit_hash : string)
    (hunk_content_by_line : list string) (label : string)
    (offset_line_numbers : list Z) (line_labels : defaultlist)
  : Py (flow defaultlist bool) :=
  match offset_line_numbers with
  | [] => ret (Continue line_labels)
  | i :: rest =>
      let (owner, line_labels) := getitem line_labels i in
      owner <- lift owner ;;
      do print (LineHasLabel i label owner) ;;
      let (owner, line_labels) := getitem line_labels i in
      owner <- lift owner ;;
      if truthy owner then
        line <- lift (list_getitem hunk_content_by_line i) ;;
        do print (TangledLineIn commit_hash line) ;;
        do print (FoundLabel owner label) ;;
        ret (Return true)
      else
        line_labels <- lift (setitem line_labels i label) ;;
        scan_offsets commit_hash hunk_content_by_line label rest line_labels
  end.

Fixpoint scan_labels (commit_hash : string)
    (hunk_content_by_line : list string)
    (items : list (string * list Z)) (line_labels : defaultlist)
  : Py (flow defaultlist bool) :=
  match items with
  | [] => ret (Continue line_labels)
  | (label, offset_line_numbers) :: rest =>
      r <- scan_offsets commit_hash hunk_content_by_line label
             offset_line_numbers line_labels ;;
      match r with
      | Continue line_labels =>
          scan_labels commit_hash hunk_content_by_line rest line_labels
      | Return b => ret (Return b)
      end
  end.

Fixpoint has_tangled_lines (hunks : list Hunk) (commit_hash : string)
  : Py bool :=
  match hunks with
  | [] => ret false
  | hunk :: rest =>
      let hunk_content_by_line := splitlines (content hunk) in
      let line_labels : defaultlist := [] in
      r <- scan_labels commit_hash hunk_content_by_line
             (lines_verified hunk) line_labels ;;
      match r with
      | Continue _ =>
          do print Blank ;;
          has_tangled_lines rest commit_hash
      | Return b => ret b
      end
  end.

(** [has_tangled_lines] and its two loops when [line_labels] can hold
    [capacity] elements and no more. *)
Fixpoint scan_offsets_within (capacity : Z) (commit_hash : string)
    (hunk_content_by_line : list string) (label : string)
    (offset_line_numbers : list Z) (line_labels : defaultlist)
  : Py (flow defaultlist bool) :=
  match offset_line_numbers with
  | [] => ret (Continue line_labels)
  | i :: rest =>
      got <- lift (getitem_within capacity line_labels i) ;;
      let (owner, line_labels) := (got : option string * defaultlist) in
      do print (LineHasLabel i label owner) ;;
      got <- lift (getitem_within capacity line_labels i) ;;
      let (owner, line_labels) := (got : option string * defaultlist) in
      if truthy owner then
        line <- lift (list_getitem hunk_content_by_line i) ;;
        do print (TangledLineIn commit_hash line) ;;
        do print (FoundLabel owner label) ;;
        ret (Return true)
      else
        line_labels <- lift (setitem_within capacity line_labels i label) ;;
        scan_offsets_within capacity commit_hash hunk_content_by_line label
          rest line_labels
  end.

Fixpoint scan_labels_within (capacity : Z) (commit_hash : string)
    (hunk_content_by_line : list string)
    (items : list (string * list Z)) (line_labels : defaultlist)
  : Py (flow defaultlist bool) :=
  match items with
  | [] => ret (Continue line_labels)
  | (label, offset_line_numbers) :: rest =>
      r <- scan_offsets_within capacity commit_hash hunk_content_by_line
             label offset_line_numbers line_labels ;;
      match r with
      | Continue line_labels =>
          scan_labels_within capacity commit_hash hunk_content_by_line rest
            line_labels
      | Return b => ret (Return b)
      end
  end.

Fixpoint has_tangled_lines_within (capacity : Z) (hunks : list Hunk)
    (commit_hash : string) : Py bool :=
  match hunks with
  | [] => ret false
  | hunk :: rest =>
      let hunk_content_by_line := splitlines (content hunk) in
      let line_labels : defaultlist := [] in
      r <- scan_labels_within capacity commit_hash hunk_content_by_line
             (lines_verified hunk) line_labels ;;
      match r with
      | Continue _ =>
          do print Blank ;;
          has_tangled_lines_within capacity rest commit_hash
      | Return b => ret b
      end
  end.

(** [File.objects(id=id).get()]. An [id] that is [None] is no [ObjectId]:
    the field rejects it with [ValidationError] when the query is built,
    before the collection is read. *)
Definition File_get (db : Database) (id : option ObjectId) : Py File :=
  match id with
  | None => raise ValidationError
  | Some _ =>
      found <- objects (File_by_id id)
                 (fun f => bool_decide (Some (File_id f) = id))
                 (File_objects db) ;;
      get found
  end.

(** The file that [is_tangled] binds to [file] for a file action. A
    loaded [File] document is true, so [not file] holds exactly when no
    old file was loaded. *)
Definition changed_file (db : Database) (fa : FileAction) : Py File :=
  file <- match old_file_id fa with
          | Some _ => f <- File_get db (old_file_id fa) ;; ret (Some f)
          | None => ret None
          end ;;
  match file with
  | Some f =>
      if String.eqb (mode fa) "R" then File_get db (file_id fa) else ret f
  | None => File_get db (file_id fa)
  end.

(** The condition of the [if ... : continue] of [is_tangled]. *)
Definition skipped (file : File) : bool :=
  negb (endswith (path file) ".java")
  || endswith (path file) "Test.java"
  || contains "src/test" (path file).

Fixpoint scan_file_actions (db : Database) (commit : Commit)
    (file_actions : list FileAction) : Py (option bool) :=
  match file_actions with
  | [] => ret None
  | fa :: rest =>
      file <- changed_file db fa ;;
      if skipped file then scan_file_actions db commit rest
      else
        hunks <- objects (Hunk_file_action_id (FileAction_id fa))
                   (fun h => bool_decide (file_action_id h = FileAction_id fa))
                   (Hunk_objects db) ;;
        b <- has_tangled_lines hunks (revision_hash commit) ;;
        ret (Some b)
  end.

(** The condition of [is_tangled]. *)
Definition validated_bugfix_with_one_parent (commit : Commit) : bool :=
  match labels commit with
  | Some d =>
      bool_decide ("validated_bugfix" ∈ dom d)
      && default false (d !! "validated_bugfix")
      && (length (parents commit) =? 1)%nat
  | None => false
  end.

Definition is_tangled (db : Database) (commit : Commit) : Py (option bool) :=
  if validated_bugfix_with_one_parent commit then
    file_actions <- objects (FileAction_commit_id (Commit_id commit))
                      (fun fa => bool_decide (commit_id fa = Commit_id commit))
                      (FileAction_objects db) ;;
    scan_file_actions db commit file_actions
  else ret (Some false).

Definition is_true (r : option bool) : bool := default false r.

Fixpoint scan_commits (db : Database) (project : Project)
    (commits : list Commit) (tangled_commits : list (string * string))
  : Py (list (string * string)) :=
  match commits with
  | [] => ret tangled_commits
  | commit :: rest =>
      r <- is_tangled db commit ;;
      scan_commits db project rest
        (if is_true r then
           tangled_commits ++ [(name project, revision_hash commit)]
         else tangled_commits)
  end.

Fixpoint scan_projects (db : Database) (projects : list Project)
    (tangled_commits : list (string * string))
  : Py (list (string * string)) :=
  match projects with
  | [] => ret tangled_commits
  | project :: rest =>
      do emit (Stderr (ProcessingProject (name project))) ;;
      found <- objects (VCSSystem_project_id (Project_id project))
                 (fun v => bool_decide (project_id v = Project_id project))
                 (VCSSystem_objects db) ;;
      vcs_system <- get found ;;
      commits <- objects (Commit_vcs_system_id (VCSSystem_id vcs_system))
                   (fun c => bool_decide (vcs_system_id c = VCSSystem_id vcs_system))
                   (Commit_objects db) ;;
      tangled_commits <- scan_commits db project commits tangled_commits ;;
      scan_projects db rest tangled_commits
  end.

Definition find_tangled_commits (db : Database)
  : Py (list (string * string)) :=
  projects <- objects (Project_name_in PROJECTS)
                (fun p => bool_decide (name p ∈ PROJECTS))
                (Project_objects db) ;;
  scan_projects db projects [].

Definition main (db : Database) : Py unit :=
  do emit Connect ;;
  tangled_commits <- find_tangled_commits db ;;
  ListTangledCommits.print_tangled_commits tangled_commits.

End Script.

End ListTangledLines.

(** ** Definitions used to state and prove the properties *)

Module Analysis.

Import DefaultList.

(** The [(label, offset)] pairs of a [lines_verified] mapping in the order
    the nested loops visit them. *)
Definition pairs (items : list (string * list Z)) : list (string * Z) :=
  items ≫= (λ item, (λ i, (item.1, i)) <$> item.2).

(** The offsets a hunk lists, with repetitions, in visiting order. *)
Definition offsets (hunk : Hunk) : list Z :=
  (pairs (lines_verified hunk)).*2.

(** [label] lists the offset [i] in the mapping. *)
Definition lists (items : list (string * list Z)) (label : string) (i : Z)
  : Prop :=
  ∃ offs, (label, offs) ∈ items ∧ i ∈ offs.

(** What [line_labels] holds at position [k]; [None] also beyond its end. *)
Definition owner (line_labels : defaultlist) (k : nat) : option string :=
  default None (line_labels !! k).

(** The two nested loops of [list_tangled_commits.has_tangled_lines] as
    one loop over [pairs]. *)
Fixpoint scan_pairs (commit_hash : string)
    (hunk_content_by_line : list string) (ps : list (string * Z))
    (line_labels : defaultlist) : Py (flow defaultlist bool) :=
  match ps with
  | [] => ret (Continue line_labels)
  | (label, i) :: rest =>
      let (owner, line_labels) := getitem line_labels i in
      owner <- lift owner ;;
      if truthy owner then
        line <- lift (list_getitem hunk_content_by_line i) ;;
        do print (TangledLineIn commit_hash line) ;;
        do print (FoundLabel owner label) ;;
        ret (Return true)
      else
        line_labels <- lift (setitem line_labels i label) ;;
        scan_pairs commit_hash hunk_content_by_line rest line_labels
  end.

(** The hunk has a label that belongs to the collection [labels]. *)
Definition has_label_in (labels : list string) (hunk : Hunk) : Prop :=
  Exists (λ label, label ∈ labels) (lines_verified hunk).*1.

Global Instance has_label_in_dec (labels : list string) (hunk : Hunk) :
  Decision (has_label_in labels hunk).
Proof. unfold has_label_in. apply _. Defined.

(** A mapping has a label that [has_tangled_hunks] counts as "fix": one
    in [CODE] and in [CODE_FIX]. *)
Definition counted_fix (CODE CODE_FIX : list string)
    (items : list (string * list Z)) : Prop :=
  ∃ label, label ∈ items.*1 ∧ label ∈ CODE ∧ label ∈ CODE_FIX.

(** A mapping has a label counted as "nofix": one in [CODE] and in
    [CODE_NO_FIX] that is not in [CODE_FIX]. *)
Definition counted_nofix (CODE CODE_FIX CODE_NO_FIX : list string)
    (items : list (string * list Z)) : Prop :=
  ∃ label, label ∈ items.*1 ∧ label ∈ CODE ∧ (label ∉ CODE_FIX)
           ∧ label ∈ CODE_NO_FIX.

(** The condition of the [continue] in [is_commit_tangled]. *)
Definition out_of_scope (file : File) : bool :=
  negb (ListTangledCommits.is_java_file file)
  || ListTangledCommits.is_test_file file.

(** Resolving the changed file of each file action in turn. *)
Fixpoint resolve_each (resolve : FileAction -> Py File)
    (file_actions : list FileAction) : Py unit :=
  match file_actions with
  | [] => ret tt
  | fa :: rest => do resolve fa ;; resolve_each resolve rest
  end.

(** [resolve] finds a file for [fa], and [skip] answers [b] on it. *)
Definition resolves (resolve : FileAction -> Py File) (skip : File -> bool)
    (b : bool) (fa : FileAction) : Prop :=
  ∃ file, (resolve fa).2 = Ok file ∧ skip file = b.

(** [FileAction.objects(commit_id=commit.id)], as a list. *)
Definition file_actions_of (db : Database) (commit : Commit)
  : list FileAction :=
  List.filter (λ fa, bool_decide (commit_id fa = Commit_id commit))
    (FileAction_objects db).


(** The events of [list_tangled_lines.py] that [list_tangled_commits.py]
    does not print: the per-line dump and the blank line after a hunk. *)
Definition is_dump (e : event) : bool :=
  match e with
  | Stdout (LineHasLabel _ _ _) | Stdout Blank => true
  | _ => false
  end.

Definition without_dump (t : list event) : list event :=
  List.filter (λ e, negb (is_dump e)) t.

(** [m'] does what [m] does, up to the dump. *)
Definition same_up_to_dump {A : Type} (m' m : Py A) : Prop :=
  m'.2 = m.2 ∧ without_dump m'.1 = m.1.

(** The hunk without the offsets that are not below the number of its
    content lines. *)
Definition within_content (hunk : Hunk) : Hunk :=
  {| file_action_id := file_action_id hunk;
     content := content hunk;
     lines_verified :=
       (λ item,
          (item.1,
           filter (λ i, i < Z.of_nat (length (splitlines (content hunk))))
             item.2))
         <$> lines_verified hunk |}.

(** What a loop over the offsets leaves to its caller, the final
    [line_labels] forgotten: the events, and whether it returned. *)
Definition answer (m : Py (flow (list (option string)) bool))
  : Py (option bool) :=
  (m.1,
   match m.2 with
   | Ok (Continue _) => Ok None
   | Ok (Return b) => Ok (Some b)
   | Raise e => Raise e
   end).

(** The ways a loop of the line detector can end: silently, going on or
    with an exception, or returning true after its two lines. *)
Definition loop_ends (commit_hash : string)
    (m : Py (flow (list (option string)) bool)) : Prop :=
  (∃ line_labels, m = ([], Ok (Continue line_labels)))
  ∨ m = ([], Raise IndexError)
  ∨ m = ([], Raise MemoryError)
  ∨ ∃ line a b,
      m = ([Stdout (TangledLineIn commit_hash line);
            Stdout (FoundLabel (Some a) b)], Ok (Return true))
      ∧ a ≠ "".

(** The selector answered [True] without raising. *)
Definition says_true (r : Py (option bool)) : bool :=
  match r.2 with
  | Ok (Some true) => true
  | _ => false
  end.

(** [Project.objects(name__in=PROJECTS)], as a list. *)
Definition named_projects (PROJECTS : list string) (db : Database)
  : list Project :=
  List.filter (λ p, bool_decide (name p ∈ PROJECTS)) (Project_objects db).

(** The commits of the one version control system of a project, in
    enumeration order; none when the project has no such system or several. *)
Definition commits_of (db : Database) (project : Project) : list Commit :=
  match List.filter (λ v, bool_decide (project_id v = Project_id project))
          (VCSSystem_objects db) with
  | [vcs_system] =>
      List.filter
        (λ c, bool_decide (vcs_system_id c = VCSSystem_id vcs_system))
        (Commit_objects db)
  | _ => []
  end.

(** Project by project and commit by commit, the commits on which the
    selector answers [True]. *)
Definition listing (db : Database) (selector : Commit -> Py (option bool))
    (projects : list Project) : list (string * string) :=
  projects ≫= (λ project,
    (λ c, (name project, revision_hash c))
      <$> List.filter (λ c, says_true (selector c)) (commits_of db project)).

(** The lines [main] prints for a list of tangled commits. *)
Definition result_lines (tangled_commits : list (string * string))
  : list event :=
  (λ pc, Stdout (ProjectCommit pc.1 pc.2)) <$> tangled_commits.

Definition is_result_line (e : event) : bool :=
  match e with
  | Stdout (ProjectCommit _ _) => true
  | _ => false
  end.

Definition is_stdout (e : event) : bool :=
  match e with
  | Stdout _ => true
  | _ => false
  end.

(** The two lines [has_tangled_lines] prints for the commit of an entry. *)
Definition reports (entry : string * string) (chunk : list event) : Prop :=
  ∃ line a b,
    chunk = [Stdout (TangledLineIn entry.2 line);
             Stdout (FoundLabel (Some a) b)].

(** [has_tangled_hunks] as the [tangle_func] of [find_tangled_commits]. *)
Definition hunk_detector (CODE CODE_FIX CODE_NO_FIX : list string)
  : list Hunk -> string -> Py bool :=
  λ hunks commit_hash,
    ret (ListTangledCommits.has_tangled_hunks CODE CODE_FIX CODE_NO_FIX
           hunks commit_hash).

End Analysis.
Import Analysis.

(** ** Example data *)

Module Examples.

Definition LF : string := String (ascii_of_nat 10) "".

(** Three lines: a, b, c. *)
Definition three_lines : string := "a" ++ LF ++ "b" ++ LF ++ "c".

Definition CODE : list string := ["bugfix"; "refactoring"; "unrelated"].
Definition CODE_FIX : list string := ["bugfix"].
Definition CODE_NO_FIX : list string := ["refactoring"; "unrelated"].

Definition hunk_of (fa : ObjectId) (items : list (string * list Z)) : Hunk :=
  {| file_action_id := fa; content := three_lines; lines_verified := items |}.

(** Two labels on line 0. *)
Definition hunk_two_on_a_line : Hunk :=
  hunk_of 12%N [("bugfix", [0]); ("documentation", [0])].

(** Three labels on line 0. *)
Definition hunk_three_on_a_line : Hunk :=
  hunk_of 12%N [("bugfix", [0]); ("refactoring", [0]); ("documentation", [0])].

(** Two labels on offset 5, beyond the three lines. *)
Definition hunk_two_beyond : Hunk :=
  hunk_of 12%N [("bugfix", [5]); ("documentation", [5])].

(** Offset 7 beyond the content, listed once. *)
Definition hunk_one_beyond : Hunk :=
  hunk_of 12%N [("bugfix", [0; 7]); ("documentation", [1])].

(** An empty label and another label on line 0. *)
Definition hunk_empty_label : Hunk :=
  hunk_of 12%N [("", [0]); ("documentation", [0])].

(** A label that lists line 0 twice. *)
Definition hunk_repeated_offset : Hunk :=
  hunk_of 12%N [("bugfix", [0; 0]); ("documentation", [0])].

(** A fix and a non-fix label on different lines. *)
Definition hunk_fix_and_nofix : Hunk :=
  hunk_of 12%N [("bugfix", [0]); ("refactoring", [1])].

Definition hunk_fix_only : Hunk :=
  hunk_of 12%N [("bugfix", [0]); ("documentation", [1])].

Definition hunk_nofix_only : Hunk :=
  hunk_of 12%N [("refactoring", [0])].

Definition test_file : File :=
  {| File_id := 1%N; path := "src/test/java/FooTest.java" |}.
Definition source_file : File :=
  {| File_id := 2%N; path := "src/main/java/Foo.java" |}.
Definition file_A : File := {| File_id := 3%N; path := "A.java" |}.
Definition file_B : File := {| File_id := 4%N; path := "B.java" |}.

Definition file_action (id commit : ObjectId) (new old : option ObjectId)
    (mode : string) : FileAction :=
  {| FileAction_id := id; commit_id := commit; file_id := new;
     old_file_id := old; mode := mode |}.

(** Commit 100 touches a test file, then a source file, then a file action
    that refers to no file at all. *)
Definition fa_test : FileAction := file_action 11%N 100%N (Some 1%N) None "M".
Definition fa_source : FileAction := file_action 12%N 100%N (Some 2%N) None "M".
Definition fa_dangling : FileAction := file_action 13%N 100%N None None "M".

(** Commit 101 touches a test file only. *)
Definition fa_test_only : FileAction :=
  file_action 14%N 101%N (Some 1%N) None "M".

(** A rename and a copy from [A.java] to [B.java]. *)
Definition fa_rename : FileAction :=
  file_action 15%N 102%N (Some 4%N) (Some 3%N) "R".
Definition fa_copy : FileAction :=
  file_action 16%N 102%N (Some 4%N) (Some 3%N) "C".

Definition commit_of (id : ObjectId) (hash : string)
    (labels : option (gmap string bool)) (parents : list string) : Commit :=
  {| Commit_id := id; vcs_system_id := 1%N; revision_hash := hash;
     labels := labels; parents := parents |}.

Definition validated : option (gmap string bool) :=
  Some {["validated_bugfix" := true]}.

Definition commit_100 : Commit := commit_of 100%N "c100" validated ["p"].
Definition commit_101 : Commit := commit_of 101%N "c101" validated ["p"].
Definition commit_merge : Commit := commit_of 103%N "c103" validated ["p"; "q"].

Definition project_1 : Project := {| Project_id := 1%N; name := "ant-ivy" |}.

Definition db : Database :=
  {| Project_objects := [project_1];
     VCSSystem_objects := [{| VCSSystem_id := 1%N; project_id := 1%N |}];
     Commit_objects := [commit_100; commit_101; commit_merge];
     FileAction_objects :=
       [fa_test; fa_source; fa_dangling; fa_test_only; fa_rename; fa_copy];
     File_objects := [test_file; source_file; file_A; file_B];
     Hunk_objects := [hunk_two_on_a_line] |}.

(** A second dataset. Commit 200 touches a test file, then a file action
    that refers to no file, then a source file. Commit 201 touches a source
    file whose hunk has two labels on one line; commit 202 a source file
    whose hunk lists an offset beyond its content twice. *)
Definition fa_200_test : FileAction := file_action 21%N 200%N (Some 1%N) None "M".
Definition fa_200_dangling : FileAction := file_action 22%N 200%N None None "M".
Definition fa_200_source : FileAction := file_action 23%N 200%N (Some 2%N) None "M".
Definition fa_201_source : FileAction := file_action 24%N 201%N (Some 2%N) None "M".
Definition fa_202_source : FileAction := file_action 25%N 202%N (Some 2%N) None "M".

Definition commit_200 : Commit := commit_of 200%N "c200" validated ["p"].
Definition commit_201 : Commit := commit_of 201%N "c201" validated ["p"].
Definition commit_202 : Commit := commit_of 202%N "c202" validated ["p"].

Definition project_2 : Project := {| Project_id := 2%N; name := "commons-io" |}.

Definition db2 : Database :=
  {| Project_objects := [project_1; project_2];
     VCSSystem_objects := [{| VCSSystem_id := 1%N; project_id := 1%N |}];
     Commit_objects := [commit_101; commit_201];
     FileAction_objects :=
       [fa_test_only; fa_200_test; fa_200_dangling; fa_200_source;
        fa_201_source; fa_202_source];
     File_objects := [test_file; source_file];
     Hunk_objects :=
       [hunk_of 24%N [("bugfix", [0]); ("refactoring", [0])];
        hunk_of 25%N [("bugfix", [5]); ("documentation", [5])]] |}.

End Examples.

(** ** Computations: basic equations *)

Lemma bind_ok {A B : Type} (t : list event) (a : A) (k : A -> Py B) :
  bind (t, Ok a) k = (t ++ (k a).1, (k a).2).
Proof. unfold bind. by destruct (k a). Qed.

Lemma bind_raise {A B : Type} (t : list event) (e : exn) (k : A -> Py B) :
  bind (t, Raise e) k = (t, Raise e).
Proof. done. Qed.

Lemma bind_ret {A B : Type} (a : A) (k : A -> Py B) : bind (ret a) k = k a.
Proof. unfold ret. rewrite bind_ok. by destruct (k a). Qed.

Lemma bind_lift_ok {A B : Type} (a : A) (k : A -> Py B) :
  bind (lift (Ok a)) k = k a.
Proof. apply bind_ret. Qed.

Lemma bind_lift_raise {A B : Type} (e : exn) (k : A -> Py B) :
  bind (lift (Raise e)) k = ([], Raise e).
Proof. done. Qed.

Lemma bind_assoc {A B C : Type} (m : Py A) (k : A -> Py B) (k' : B -> Py C) :
  bind (bind m k) k' = bind m (fun a => bind (k a) k').
Proof.
  destruct m as [t [a|e]]; [|done].
  rewrite (bind_ok t a k), (bind_ok t a).
  destruct (k a) as [t1 [b|e]]; cbn [fst snd].
  - rewrite !bind_ok. cbn [fst snd]. by rewrite (assoc_L (++)).
  - done.
Qed.

Lemma bind_ext {A B : Type} (m : Py A) (k k' : A -> Py B) :
  (∀ a, k a = k' a) -> bind m k = bind m k'.
Proof. intros E. destruct m as [t [a|e]]; [|done]. by rewrite !bind_ok, E. Qed.

(** ** [defaultlist] at offsets that are not negative *)

Section DefaultListFacts.

Import DefaultList.

Lemma list_index_in_range {X : Type} (l : list X) (i : Z) :
  0 <= i < Z.of_nat (length l) -> list_index l i = Some (Z.to_nat i).
Proof.
  intros Hi. unfold list_index.
  destruct (Z.ltb_spec i 0); [lia|].
  destruct (Z.ltb_spec i 0); [lia|].
  destruct (Z.leb_spec (Z.of_nat (length l)) i); [lia|done].
Qed.

Lemma list_index_beyond {X : Type} (l : list X) (i : Z) :
  Z.of_nat (length l) <= i -> list_index l i = None.
Proof.
  intros Hi. unfold list_index.
  destruct (Z.ltb_spec i 0); [lia|].
  destruct (Z.ltb_spec i 0); [lia|].
  destruct (Z.leb_spec (Z.of_nat (length l)) i); [done|lia].
Qed.

Lemma list_getitem_in_range {X : Type} (l : list X) (i : Z) :
  0 <= i < Z.of_nat (length l) ->
  ∃ x, l !! Z.to_nat i = Some x ∧ list_getitem l i = Ok x.
Proof.
  intros Hi. unfold list_getitem. rewrite list_index_in_range by done.
  destruct (lookup_lt_is_Some_2 l (Z.to_nat i)) as [x Hx]; [lia|].
  exists x. by rewrite Hx.
Qed.

Lemma list_getitem_beyond {X : Type} (l : list X) (i : Z) :
  Z.of_nat (length l) <= i -> list_getitem l i = Raise IndexError.
Proof.
  intros Hi. unfold list_getitem. by rewrite list_index_beyond.
Qed.

Lemma length_fill (l : defaultlist) (i : Z) :
  0 <= i -> (Z.to_nat i < length (fill l i))%nat.
Proof.
  intros Hi. unfold fill; cbv zeta.
  destruct (Z.ltb_spec 0 (i - Z.of_nat (length l) + 1)).
  - rewrite length_app, length_replicate. lia.
  - lia.
Qed.

Lemma owner_fill (l : defaultlist) (i : Z) (k : nat) :
  owner (fill l i) k = owner l k.
Proof.
  unfold owner, fill; cbv zeta.
  destruct (Z.ltb_spec 0 (i - Z.of_nat (length l) + 1)); [|done].
  destruct (decide (k < length l)%nat).
  - by rewrite lookup_app_l.
  - rewrite lookup_app_r by lia. rewrite (lookup_ge_None_2 l k) by lia.
    destruct (replicate _ _ !! _) eqn:E; [|done].
    by apply lookup_replicate in E as [-> _].
Qed.

Lemma fill_fill (l : defaultlist) (i : Z) : fill (fill l i) i = fill l i.
Proof.
  unfold fill at 1; cbv zeta.
  destruct (Z.ltb_spec 0 (i - Z.of_nat (length (fill l i)) + 1)); [|done].
  exfalso. unfold fill in *; cbv zeta in *.
  destruct (Z.ltb_spec 0 (i - Z.of_nat (length l) + 1)).
  - rewrite length_app, length_replicate in *. lia.
  - lia.
Qed.

Lemma getitem_nonneg (l : defaultlist) (i : Z) :
  0 <= i -> getitem l i = (Ok (owner l (Z.to_nat i)), fill l i).
Proof.
  intros Hi. unfold getitem. f_equal.
  pose proof (length_fill l i Hi) as Hlen.
  destruct (list_getitem_in_range (fill l i) i) as (x & Hx & ->); [lia|].
  f_equal. rewrite <- (owner_fill l i). unfold owner. by rewrite Hx.
Qed.

Lemma getitem_twice (l : defaultlist) (i : Z) :
  getitem (getitem l i).2 i = getitem l i.
Proof. unfold getitem; simpl. by rewrite fill_fill. Qed.

Lemma setitem_nonneg (l : defaultlist) (i : Z) (v : string) :
  0 <= i ->
  setitem l i v = Ok (<[Z.to_nat i := Some v]> (fill l i)).
Proof.
  intros Hi. unfold setitem, list_setitem.
  pose proof (length_fill l i Hi).
  rewrite list_index_in_range by lia. done.
Qed.

Lemma owner_set (l : defaultlist) (i : Z) (v : string) (k : nat) :
  0 <= i ->
  owner (<[Z.to_nat i := Some v]> (fill l i)) k =
    if decide (Z.to_nat i = k) then Some v else owner l k.
Proof.
  intros Hi. pose proof (length_fill l i Hi). unfold owner at 1.
  case_decide as Hk.
  - subst k. by rewrite list_lookup_insert_eq.
  - rewrite list_lookup_insert_ne by done. apply owner_fill.
Qed.

End DefaultListFacts.

(** ** The nested loops of [has_tangled_lines] as one loop *)

Section OneLoop.

Import DefaultList ListTangledCommits.

Variables (commit_hash : string) (hunk_content_by_line : list string).

Lemma scan_offsets_pairs (label : string) (rest : list (string * Z))
    (offs : list Z) (line_labels : defaultlist) :
  bind (scan_offsets commit_hash hunk_content_by_line label offs line_labels)
       (λ r, match r with
             | Continue line_labels =>
                 scan_pairs commit_hash hunk_content_by_line rest line_labels
             | Return b => ret (Return b)
             end)
  = scan_pairs commit_hash hunk_content_by_line
      (((λ i, (label, i)) <$> offs) ++ rest) line_labels.
Proof.
  revert line_labels. induction offs as [|i offs IH]; intros line_labels.
  - cbn [scan_offsets fmap list_fmap app]. by rewrite bind_ret.
  - cbn [scan_offsets fmap list_fmap app scan_pairs].
    destruct (getitem line_labels i) as [[o|e] l']; [|done].
    rewrite !bind_lift_ok. destruct (truthy o).
    + destruct (list_getitem hunk_content_by_line i) as [line|e]; [|done].
      rewrite !bind_lift_ok. rewrite !bind_assoc. unfold print, emit.
      rewrite !bind_ok. cbn [fst snd]. by rewrite bind_ret.
    + destruct (setitem l' i label) as [l''|e]; [|done].
      rewrite !bind_lift_ok. apply IH.
Qed.

Lemma scan_labels_pairs (items : list (string * list Z))
    (line_labels : defaultlist) :
  scan_labels commit_hash hunk_content_by_line items line_labels
  = scan_pairs commit_hash hunk_content_by_line (pairs items) line_labels.
Proof.
  revert line_labels.
  induction items as [|[label offs] items IH]; intros line_labels; [done|].
  cbn [scan_labels]. unfold pairs. cbn [mbind list_bind fst snd].
  rewrite <- scan_offsets_pairs. apply bind_ext.
  intros [l|b]; [apply IH|done].
Qed.

End OneLoop.

(** ** [list_tangled_lines.has_tangled_lines] against
       [list_tangled_commits.has_tangled_lines] *)

Section TwoVariants.

Import DefaultList.

Lemma same_up_to_dump_refl {A : Type} (m : Py A) :
  without_dump m.1 = m.1 -> same_up_to_dump m m.
Proof. by split. Qed.

Lemma without_dump_app (t t' : list event) :
  without_dump (t ++ t') = without_dump t ++ without_dump t'.
Proof. apply List.filter_app. Qed.

Lemma same_up_to_dump_bind {A B : Type} (m' m : Py A) (k' k : A -> Py B) :
  same_up_to_dump m' m ->
  (∀ a, same_up_to_dump (k' a) (k a)) ->
  same_up_to_dump (bind m' k') (bind m k).
Proof.
  destruct m' as [t' r'], m as [t r]. intros [Hr Ht] Hk.
  cbn [fst snd] in Hr, Ht. subst r' t. destruct r as [a|e].
  - rewrite !bind_ok. destruct (Hk a) as [Hr Ht]. split; cbn [fst snd].
    + done.
    + by rewrite without_dump_app, Ht.
  - by split.
Qed.

Lemma same_up_to_dump_print {B : Type} (m : message) (k' k : Py B) :
  is_dump (Stdout m) = true ->
  same_up_to_dump k' k ->
  same_up_to_dump (bind (print m) (λ _, k')) k.
Proof.
  intros Hm [Hr Ht]. unfold print, emit. rewrite bind_ok.
  split; cbn [fst snd]; [done|].
  rewrite without_dump_app. unfold without_dump at 1.
  cbn [List.filter]. rewrite Hm. done.
Qed.

Variables (commit_hash : string) (hunk_content_by_line : list string).

Lemma scan_offsets_same (label : string) (offs : list Z)
    (line_labels : defaultlist) :
  same_up_to_dump
    (ListTangledLines.scan_offsets commit_hash hunk_content_by_line label
       offs line_labels)
    (ListTangledCommits.scan_offsets commit_hash hunk_content_by_line label
       offs line_labels).
Proof.
  revert line_labels. induction offs as [|i offs IH]; intros line_labels.
  - by split.
  - cbn [ListTangledLines.scan_offsets ListTangledCommits.scan_offsets].
    pose proof (getitem_twice line_labels i) as Htwice.
    destruct (getitem line_labels i) as [[o|e] l'] eqn:E; [|by split].
    cbn [snd] in Htwice. rewrite !bind_lift_ok.
    apply same_up_to_dump_print; [done|].
    rewrite Htwice. rewrite !bind_lift_ok.
    destruct (truthy o).
    + by destruct (list_getitem hunk_content_by_line i) as [line|e].
    + destruct (setitem l' i label) as [l''|e]; [|by split].
      rewrite !bind_lift_ok. apply IH.
Qed.

Lemma scan_labels_same (items : list (string * list Z))
    (line_labels : defaultlist) :
  same_up_to_dump
    (ListTangledLines.scan_labels commit_hash hunk_content_by_line items
       line_labels)
    (ListTangledCommits.scan_labels commit_hash hunk_content_by_line items
       line_labels).
Proof.
  revert line_labels.
  induction items as [|[label offs] items IH]; intros line_labels.
  - by split.
  - cbn [ListTangledLines.scan_labels ListTangledCommits.scan_labels].
    apply same_up_to_dump_bind; [apply scan_offsets_same|].
    intros [l|b]; [apply IH|by split].
Qed.

End TwoVariants.

Lemma has_tangled_lines_same (hunks : list Hunk) (commit_hash : string) :
  same_up_to_dump
    (ListTangledLines.has_tangled_lines hunks commit_hash)
    (ListTangledCommits.has_tangled_lines hunks commit_hash).
Proof.
  induction hunks as [|hunk hunks IH]; [by split|].
  cbn [ListTangledLines.has_tangled_lines ListTangledCommits.has_tangled_lines].
  apply same_up_to_dump_bind; [apply scan_labels_same|].
  intros [l|b]; [|by split].
  by apply same_up_to_dump_print.
Qed.

(** ** The first collision found by the line detector *)

Section FirstCollision.

Import DefaultList.

Variables (commit_hash : string) (hunk_content_by_line : list string).

Abbreviation scan := (scan_pairs commit_hash hunk_content_by_line).

(** One step of the loop at an offset nobody owns yet. *)
Lemma scan_pairs_free (label : string) (i : Z) (rest : list (string * Z))
    (line_labels : defaultlist) :
  0 <= i ->
  truthy (owner line_labels (Z.to_nat i)) = false ->
  scan ((label, i) :: rest) line_labels
  = scan rest (<[Z.to_nat i := Some label]> (fill line_labels i)).
Proof.
  intros Hi Hfree. cbn [scan_pairs].
  rewrite getitem_nonneg by done. rewrite bind_lift_ok, Hfree.
  rewrite setitem_nonneg by done. rewrite fill_fill. by rewrite bind_lift_ok.
Qed.

(** One step of the loop at an offset that has an owner. *)
Lemma scan_pairs_owned (label : string) (i : Z) (rest : list (string * Z))
    (line_labels : defaultlist) :
  0 <= i ->
  truthy (owner line_labels (Z.to_nat i)) = true ->
  scan ((label, i) :: rest) line_labels
  = match list_getitem hunk_content_by_line i with
    | Ok line =>
        ([Stdout (TangledLineIn commit_hash line);
          Stdout (FoundLabel (owner line_labels (Z.to_nat i)) label)],
         Ok (Return true))
    | Raise e => ([], Raise e)
    end.
Proof.
  intros Hi Howned. cbn [scan_pairs].
  rewrite getitem_nonneg by done. rewrite bind_lift_ok, Howned.
  by destruct (list_getitem hunk_content_by_line i).
Qed.

(** While no offset repeats, [line_labels] records exactly the pairs
    visited so far. *)
Lemma scan_pairs_prefix (pre rest visited : list (string * Z))
    (line_labels : defaultlist) :
  (∀ k l, owner line_labels k = Some l ↔ (l, Z.of_nat k) ∈ visited) ->
  NoDup (visited ++ pre).*2 ->
  (∀ p, p ∈ pre -> 0 <= p.2) ->
  ∃ line_labels',
    (∀ k l, owner line_labels' k = Some l ↔ (l, Z.of_nat k) ∈ visited ++ pre)
    ∧ scan (pre ++ rest) line_labels = scan rest line_labels'.
Proof.
  revert visited line_labels.
  induction pre as [|[label i] pre IH]; intros visited line_labels Hinv Hnd Hpos.
  - exists line_labels. by rewrite app_nil_r.
  - assert (0 <= i) as Hi by (apply (Hpos (label, i)); left).
    assert (i ∉ visited.*2) as Hfresh.
    { rewrite fmap_app in Hnd. apply NoDup_app in Hnd as (_ & Hnd & _).
      intros Hin. apply (Hnd i Hin). left. }
    assert (owner line_labels (Z.to_nat i) = None) as Hnone.
    { destruct (owner line_labels (Z.to_nat i)) as [l|] eqn:E; [|done].
      apply Hinv in E. rewrite Z2Nat.id in E by done.
      exfalso. apply Hfresh. by apply (list_elem_of_fmap_2 snd) in E. }
    destruct (IH (visited ++ [(label, i)])
                (<[Z.to_nat i := Some label]> (fill line_labels i)))
      as (l' & Hinv' & Hscan).
    + intros k l. rewrite owner_set by done. rewrite elem_of_app.
      rewrite list_elem_of_singleton. case_decide as Hk.
      * subst k. rewrite Z2Nat.id by done. split.
        -- intros [= ->]. by right.
        -- intros [Hin | [= -> ]]; [|done].
           exfalso. apply Hfresh. by apply (list_elem_of_fmap_2 snd) in Hin.
      * rewrite Hinv. split; [by left|].
        intros [Hin | [= -> <-]]; [done|]. by rewrite Nat2Z.id in Hk.
    + by rewrite <- (assoc_L (++)).
    + intros p Hp. apply Hpos. by right.
    + exists l'. split.
      * intros k l. rewrite Hinv'. by rewrite <- (assoc_L (++)).
      * cbn [app]. rewrite scan_pairs_free; [done..|]. by rewrite Hnone.
Qed.

(** A list with a repeated offset splits at the first repetition. *)
Lemma first_repetition (ps : list (string * Z)) :
  ¬ NoDup ps.*2 ->
  ∃ pre p post, ps = pre ++ p :: post ∧ NoDup pre.*2 ∧ p.2 ∈ pre.*2.
Proof.
  induction ps as [|p ps IH] using rev_ind; intros Hdup.
  - destruct Hdup. constructor.
  - destruct (decide (NoDup ps.*2)) as [Hnd|Hnd].
    + exists ps, p, []. split; [done|]. split; [done|].
      destruct (decide (p.2 ∈ ps.*2)) as [|Hnotin]; [done|].
      destruct Hdup. rewrite fmap_app. apply NoDup_app.
      split; [done|]. split; [|apply NoDup_singleton].
      intros x Hx. cbn. rewrite list_elem_of_singleton. by intros ->.
    + destruct (IH Hnd) as (pre & q & post & -> & Hpre & Hq).
      exists pre, q, (post ++ [p]). by rewrite <- (assoc_L (++)).
Qed.

End FirstCollision.

(** ** When the line detector returns *)

Section Returns.

Import DefaultList.

Variables (commit_hash : string) (hunk_content_by_line : list string).

Abbreviation beyond :=
  (filter (λ i, Z.of_nat (length hunk_content_by_line) <= i)).

(** No exception is raised when the offsets are not negative and no offset
    beyond the content is visited twice. *)
Lemma scan_pairs_returns (ps visited : list (string * Z))
    (line_labels : defaultlist) :
  (∀ k l, owner line_labels k = Some l -> (l, Z.of_nat k) ∈ visited) ->
  (∀ p, p ∈ ps -> 0 <= p.2) ->
  NoDup (beyond (visited ++ ps).*2) ->
  ∃ t r, scan_pairs commit_hash hunk_content_by_line ps line_labels
         = (t, Ok r).
Proof.
  revert visited line_labels.
  induction ps as [|[label i] ps IH]; intros visited line_labels Hinv Hpos Hnd.
  - by eexists _, _.
  - assert (0 <= i) as Hi by (apply (Hpos (label, i)); left).
    destruct (truthy (owner line_labels (Z.to_nat i))) eqn:Htruthy.
    + rewrite scan_pairs_owned by done.
      destruct (owner line_labels (Z.to_nat i)) as [l|] eqn:Howner; [|done].
      apply Hinv in Howner. rewrite Z2Nat.id in Howner by done.
      apply (list_elem_of_fmap_2 snd) in Howner. cbn [snd] in Howner.
      destruct (decide (i < Z.of_nat (length hunk_content_by_line))) as [Hlt|Hge].
      * destruct (list_getitem_in_range hunk_content_by_line i)
          as (line & _ & ->); [lia|]. by eexists _, _.
      * exfalso. rewrite fmap_app, fmap_cons, filter_app in Hnd.
        rewrite filter_cons_True in Hnd by (cbn; lia).
        apply NoDup_app in Hnd as (_ & Hnd & _).
        apply (Hnd i); [|left]. apply list_elem_of_filter. split; [lia|done].
    + rewrite scan_pairs_free by done.
      apply (IH (visited ++ [(label, i)])).
      * intros k l. rewrite owner_set by done. rewrite elem_of_app.
        case_decide as Hk.
        -- intros [= <-]. right. subst k. rewrite Z2Nat.id by done. left.
        -- intros Ho. left. by apply Hinv.
      * intros p Hp. apply Hpos. by right.
      * by rewrite <- (assoc_L (++)).
Qed.

End Returns.

(** When the first repeated offset lies beyond the content, the line to
    print does not exist. *)
Lemma first_collision_beyond_content_raises (hunk : Hunk) (rest : list Hunk)
    (commit_hash b : string) (j : Z) (pre post : list (string * Z)) :
  pairs (lines_verified hunk) = pre ++ (b, j) :: post ->
  NoDup pre.*2 ->
  Forall (λ p, p.1 ≠ "" ∧ 0 <= p.2) pre ->
  j ∈ pre.*2 ->
  Z.of_nat (length (splitlines (content hunk))) <= j ->
  ListTangledCommits.has_tangled_lines (hunk :: rest) commit_hash
  = ([], Raise IndexError).
Proof.
  intros Hsplit Hnd Hpre Hj Hbeyond. rewrite Forall_forall in Hpre.
  apply list_elem_of_fmap in Hj as ([a j'] & Hj' & Ha).
  cbn [snd] in Hj'. subst j'. destruct (Hpre _ Ha) as [Ha' Hpos].
  cbn [fst snd] in Ha', Hpos.
  cbn [ListTangledCommits.has_tangled_lines].
  rewrite scan_labels_pairs, Hsplit.
  destruct (scan_pairs_prefix commit_hash (splitlines (content hunk)) pre
              ((b, j) :: post) [] []) as (line_labels & Hinv & ->).
  - intros k l. unfold owner. rewrite lookup_nil. cbn. split; [done|].
    by intros ?%elem_of_nil.
  - done.
  - intros p Hp. by apply Hpre.
  - assert (owner line_labels (Z.to_nat j) = Some a) as Howner.
    { apply Hinv. by rewrite Z2Nat.id. }
    rewrite scan_pairs_owned; [|done|rewrite Howner; by destruct a].
    by rewrite list_getitem_beyond.
Qed.

(** ** The pairs of a mapping *)

Lemma elem_of_pairs (items : list (string * list Z)) (label : string) (i : Z) :
  (label, i) ∈ pairs items ↔ lists items label i.
Proof.
  unfold pairs, lists. rewrite list_elem_of_bind. split.
  - intros ([l offs] & Hin & Hitem). cbn [fst snd] in Hin.
    apply list_elem_of_fmap in Hin as (j & [= -> ->] & Hj). eauto.
  - intros (offs & Hitem & Hi). exists (label, offs). split; [|done].
    cbn [fst snd]. apply list_elem_of_fmap. eauto.
Qed.

Lemma NoDup_pairs (items : list (string * list Z)) :
  NoDup items.*1 ->
  (∀ label offs, (label, offs) ∈ items -> NoDup offs) ->
  NoDup (pairs items).
Proof.
  induction items as [|[label offs] items IH]; intros Hkeys Hoffs.
  - constructor.
  - unfold pairs. cbn [mbind list_bind fst snd]. fold (pairs items).
    rewrite fmap_cons in Hkeys. apply NoDup_cons in Hkeys as [Hlabel Hkeys].
    apply NoDup_app. split; [|split].
    + apply NoDup_fmap_2_strong; [by intros ?? _ _ [=]|].
      apply (Hoffs label). left.
    + intros [l i] Hin Hin'.
      apply list_elem_of_fmap in Hin as (j & [= -> ->] & _).
      apply elem_of_pairs in Hin' as (offs' & Hitem & _).
      apply Hlabel. by apply (list_elem_of_fmap_2 fst) in Hitem.
    + apply IH; [done|]. intros l o Hin. apply (Hoffs l). by right.
Qed.

Lemma NoDup_fmap_eq {X Y : Type} (f : X -> Y) (l : list X) (x y : X) :
  NoDup (f <$> l) -> x ∈ l -> y ∈ l -> f x = f y -> x = y.
Proof.
  induction l as [|z l IH]; intros Hnd Hx Hy Hf.
  - by apply elem_of_nil in Hx.
  - rewrite fmap_cons in Hnd. apply NoDup_cons in Hnd as [Hz Hnd].
    apply elem_of_cons in Hx as [->|Hx], Hy as [->|Hy]; [done| | |by apply IH].
    + exfalso. apply Hz. rewrite Hf. by apply list_elem_of_fmap_2.
    + exfalso. apply Hz. rewrite <- Hf. by apply list_elem_of_fmap_2.
Qed.

(** ** Properties of the line detector *)

(** C1, as amended. For a hunk whose labels are non-empty strings and whose
    offsets are valid indices into the content, listed once per label: when
    two different labels list the same offset, [has_tangled_lines] on that
    hunk returns true (in both scripts) and prints the line and the two
    labels of the first collision in iteration order. The two printed labels
    are different and both list the printed offset. They are the two labels
    one started from when the mapping has no other label; with more labels
    they can be another pair. *)
Theorem has_tangled_lines_reports_first_collision
    (hunk : Hunk) (commit_hash l1 l2 : string) (i : Z) :
  let items := lines_verified hunk in
  let hunk_content_by_line := splitlines (content hunk) in
  NoDup items.*1 ->
  Forall (λ item, item.1 ≠ ""
                  ∧ NoDup item.2
                  ∧ Forall (λ j, 0 <= j < Z.of_nat (length hunk_content_by_line))
                      item.2) items ->
  l1 ≠ l2 -> lists items l1 i -> lists items l2 i ->
  ∃ (a b line : string) (j : Z) (pre post : list (string * Z)),
    ListTangledCommits.has_tangled_lines [hunk] commit_hash
    = ([Stdout (TangledLineIn commit_hash line);
        Stdout (FoundLabel (Some a) b)], Ok true)
    ∧ same_up_to_dump
        (ListTangledLines.has_tangled_lines [hunk] commit_hash)
        ([Stdout (TangledLineIn commit_hash line);
          Stdout (FoundLabel (Some a) b)], Ok true)
    ∧ hunk_content_by_line !! Z.to_nat j = Some line
    ∧ a ≠ b ∧ lists items a j ∧ lists items b j
    ∧ pairs items = pre ++ (b, j) :: post ∧ NoDup pre.*2 ∧ (a, j) ∈ pre
    ∧ ((∀ label, label ∈ items.*1 -> label = l1 ∨ label = l2) ->
       (a = l1 ∧ b = l2) ∨ (a = l2 ∧ b = l1)).
Proof.
  intros items lines Hkeys Hitems Hne Hl1 Hl2.
  rewrite Forall_forall in Hitems.
  assert (∀ p, p ∈ pairs items ->
            p.1 ≠ "" ∧ 0 <= p.2 < Z.of_nat (length lines)) as Hps.
  { intros [l k] Hp. apply elem_of_pairs in Hp as (offs & Hitem & Hk).
    destruct (Hitems _ Hitem) as (Hl & _ & Hoffs). cbn [fst snd] in *.
    rewrite Forall_forall in Hoffs. auto. }
  assert (NoDup (pairs items)) as Hnd.
  { apply NoDup_pairs; [done|]. intros l offs Hitem.
    by destruct (Hitems _ Hitem) as (_ & ? & _). }
  destruct (first_repetition (pairs items)) as (pre & [b j] & post & Hsplit & Hpre & Hj).
  { intros Hsnd. apply Hne.
    apply elem_of_pairs in Hl1, Hl2.
    by pose proof (NoDup_fmap_eq snd _ _ _ Hsnd Hl1 Hl2 eq_refl) as [= ->]. }
  cbn [snd] in Hj. apply list_elem_of_fmap in Hj as ([a j'] & Hj' & Ha).
  cbn [snd] in Hj'. subst j'.
  assert ((a, j) ∈ pairs items) as Ha'.
  { rewrite Hsplit. apply elem_of_app. by left. }
  assert ((b, j) ∈ pairs items) as Hb'.
  { rewrite Hsplit. apply elem_of_app. right. left. }
  destruct (Hps _ Ha') as [Hanonempty Hjrange]. cbn [fst snd] in *.
  destruct (list_getitem_in_range lines j Hjrange) as (line & Hline & Hget).
  assert (a ≠ b) as Hab.
  { intros ->. rewrite Hsplit in Hnd. apply NoDup_app in Hnd as (_ & Hnd & _).
    apply (Hnd _ Ha). left. }
  assert (ListTangledCommits.has_tangled_lines [hunk] commit_hash
          = ([Stdout (TangledLineIn commit_hash line);
              Stdout (FoundLabel (Some a) b)], Ok true)) as Hrun.
  { cbn [ListTangledCommits.has_tangled_lines]. rewrite scan_labels_pairs.
    fold items lines. rewrite Hsplit.
    destruct (scan_pairs_prefix commit_hash lines pre ((b, j) :: post) [] [])
      as (line_labels & Hinv & ->).
    - intros k l. unfold owner. rewrite lookup_nil. cbn. split; [done|].
      by intros ?%elem_of_nil.
    - done.
    - intros p Hp. apply Hps. rewrite Hsplit. apply elem_of_app. by left.
    - assert (owner line_labels (Z.to_nat j) = Some a) as Howner.
      { apply Hinv. rewrite Z2Nat.id by lia. done. }
      rewrite scan_pairs_owned; [|lia|rewrite Howner; by destruct a].
      rewrite Hget, Howner. done. }
  exists a, b, line, j, pre, post.
  split; [done|]. split; [rewrite <- Hrun; apply has_tangled_lines_same|].
  split; [done|]. split; [done|].
  split; [by apply elem_of_pairs|]. split; [by apply elem_of_pairs|].
  split; [done|]. split; [done|]. split; [done|].
  intros Honly.
  apply elem_of_pairs in Ha' as (oa & Hoa & _), Hb' as (ob & Hob & _).
  apply (list_elem_of_fmap_2 fst) in Hoa, Hob. cbn [fst] in *.
  destruct (Honly a Hoa), (Honly b Hob); subst; auto; done.
Qed.

(** ** Properties of the hunk detector *)

Section HunkDetector.

Import ListTangledCommits.

Variables LINE_LABELS_CODE LINE_LABELS_CODE_FIX LINE_LABELS_CODE_NO_FIX
  : list string.

Abbreviation scan_hunk :=
  (scan_hunk_labels LINE_LABELS_CODE LINE_LABELS_CODE_FIX
     LINE_LABELS_CODE_NO_FIX).
Abbreviation tangled_hunks :=
  (has_tangled_hunks LINE_LABELS_CODE LINE_LABELS_CODE_FIX
     LINE_LABELS_CODE_NO_FIX).

(** [seen_labels] reaches two elements exactly when it holds both marks. *)
Lemma size_seen_labels (seen_labels : gset string) :
  seen_labels ⊆ {["fix"; "nofix"]} ->
  size seen_labels = 2%nat ↔ "fix" ∈ seen_labels ∧ "nofix" ∈ seen_labels.
Proof.
  intros Hsub. split.
  - intros Hsize.
    destruct (decide ("fix" ∈ seen_labels)) as [Hfix|Hfix];
      destruct (decide ("nofix" ∈ seen_labels)) as [Hnofix|Hnofix];
      [done|exfalso..].
    + assert (seen_labels ⊆ {["fix"]}) as Hle by set_solver.
      apply subseteq_size in Hle. rewrite size_singleton in Hle. lia.
    + assert (seen_labels ⊆ {["nofix"]}) as Hle by set_solver.
      apply subseteq_size in Hle. rewrite size_singleton in Hle. lia.
    + assert (seen_labels ⊆ {["nofix"]}) as Hle by set_solver.
      apply subseteq_size in Hle. rewrite size_singleton in Hle. lia.
  - intros [Hfix Hnofix].
    assert (seen_labels = {["fix"]} ∪ {["nofix"]}) as -> by set_solver.
    rewrite size_union by set_solver. by rewrite !size_singleton.
Qed.

(** The loop over the labels of one hunk returns true exactly when the
    marks already seen and the labels still to come provide both a label
    counted as "fix" and a label counted as "nofix". *)
Lemma scan_hunk_labels_spec (items : list (string * list Z))
    (seen_labels : gset string) :
  seen_labels ⊆ {["fix"; "nofix"]} ->
  ¬ ("fix" ∈ seen_labels ∧ "nofix" ∈ seen_labels) ->
  let both :=
    ("fix" ∈ seen_labels ∨ counted_fix LINE_LABELS_CODE LINE_LABELS_CODE_FIX items)
    ∧ ("nofix" ∈ seen_labels
       ∨ counted_nofix LINE_LABELS_CODE LINE_LABELS_CODE_FIX
           LINE_LABELS_CODE_NO_FIX items) in
  match scan_hunk items seen_labels with
  | Return b => b = true ∧ both
  | Continue _ => ¬ both
  end.
Proof.
  revert seen_labels.
  induction items as [|[label offs] items IH]; intros seen Hsub Hnot both.
  - cbn. unfold both, counted_fix, counted_nofix.
    intros [[?|(l & Hl & _)] [?|(l' & Hl' & _)]];
      try (by apply elem_of_nil in Hl); try (by apply elem_of_nil in Hl');
      by apply Hnot.
  - cbn [scan_hunk_labels].
    assert (∀ P Q : string -> Prop,
              (∃ l, l ∈ ((label, offs) :: items).*1 ∧ P l)
              ↔ P label ∨ ∃ l, l ∈ items.*1 ∧ P l) as Hex.
    { intros P Q. rewrite fmap_cons. cbn [fst]. split.
      - intros (l & [->|Hl]%elem_of_cons & HP); eauto.
      - intros [HP|(l & Hl & HP)]; [exists label|exists l];
          (split; [|done]); rewrite elem_of_cons; auto. }
    assert (both ↔
            ("fix" ∈ seen
             ∨ (label ∈ LINE_LABELS_CODE ∧ label ∈ LINE_LABELS_CODE_FIX)
             ∨ counted_fix LINE_LABELS_CODE LINE_LABELS_CODE_FIX items)
            ∧ ("nofix" ∈ seen
               ∨ (label ∈ LINE_LABELS_CODE ∧ (label ∉ LINE_LABELS_CODE_FIX)
                  ∧ label ∈ LINE_LABELS_CODE_NO_FIX)
               ∨ counted_nofix LINE_LABELS_CODE LINE_LABELS_CODE_FIX
                   LINE_LABELS_CODE_NO_FIX items)) as Hboth.
    { unfold both, counted_fix, counted_nofix. by rewrite !(Hex _ (λ _, True)). }
    clearbody both. clear Hex.
    case_bool_decide as Hcode; cbn [negb]; cycle 1.
    { specialize (IH seen Hsub Hnot). cbv zeta in IH.
      destruct (scan_hunk items seen); tauto. }
    set (seen' := if bool_decide (label ∈ LINE_LABELS_CODE_FIX)
                  then seen ∪ {["fix"]}
                  else if bool_decide (label ∈ LINE_LABELS_CODE_NO_FIX)
                       then seen ∪ {["nofix"]} else seen).
    assert (seen' ⊆ {["fix"; "nofix"]}) as Hsub'.
    { unfold seen'. repeat case_bool_decide; set_solver. }
    assert (("fix" ∈ seen' ↔ "fix" ∈ seen ∨ label ∈ LINE_LABELS_CODE_FIX)
            ∧ ("nofix" ∈ seen' ↔
               "nofix" ∈ seen ∨ ((label ∉ LINE_LABELS_CODE_FIX)
                                 ∧ label ∈ LINE_LABELS_CODE_NO_FIX)))
      as [Hfix' Hnofix'].
    { unfold seen'. repeat case_bool_decide; set_solver. }
    pose proof (size_seen_labels seen' Hsub') as Hsize.
    destruct (Nat.eqb_spec (size seen') 2) as [Heq|Hneq].
    + apply Hsize in Heq. tauto.
    + assert (¬ ("fix" ∈ seen' ∧ "nofix" ∈ seen')) as Hnot' by tauto.
      specialize (IH seen' Hsub' Hnot'). cbv zeta in IH.
      destruct (scan_hunk items seen'); tauto.
Qed.

(** The detector is true exactly when some hunk of the list has both a
    label counted as "fix" and a label counted as "nofix". *)
Lemma has_tangled_hunks_spec (hunks : list Hunk) (commit_hash : string) :
  tangled_hunks hunks commit_hash = true
  ↔ ∃ hunk, hunk ∈ hunks
      ∧ counted_fix LINE_LABELS_CODE LINE_LABELS_CODE_FIX (lines_verified hunk)
      ∧ counted_nofix LINE_LABELS_CODE LINE_LABELS_CODE_FIX
          LINE_LABELS_CODE_NO_FIX (lines_verified hunk).
Proof.
  induction hunks as [|hunk hunks IH].
  - cbn. split; [done|]. by intros (h & ?%elem_of_nil & _).
  - cbn [has_tangled_hunks].
    pose proof (scan_hunk_labels_spec (lines_verified hunk) ∅) as Hscan.
    cbv zeta in Hscan.
    destruct (scan_hunk (lines_verified hunk) ∅) as [seen|b].
    + rewrite IH. split.
      * intros (h & Hh & Hboth). exists h. split; [by right|done].
      * intros (h & [->|Hh]%elem_of_cons & Hfix & Hnofix); [|by eauto].
        exfalso. apply Hscan; [set_solver..|]. auto.
    + destruct Hscan as (-> & [Hfix|Hfix] & [Hnofix|Hnofix]);
        [set_solver..|]. split; [|done].
      intros _. exists hunk. split; [left|done].
Qed.

End HunkDetector.

Section HunkDetectorProperties.

Import ListTangledCommits.

Variables LINE_LABELS_CODE LINE_LABELS_CODE_FIX LINE_LABELS_CODE_NO_FIX
  : list string.

Lemma counted_fix_has_label (hunk : Hunk) :
  counted_fix LINE_LABELS_CODE LINE_LABELS_CODE_FIX (lines_verified hunk) ->
  has_label_in LINE_LABELS_CODE_FIX hunk.
Proof.
  intros (l & Hl & _ & Hfix). apply Exists_exists. eauto.
Qed.

Lemma counted_nofix_has_label (hunk : Hunk) :
  counted_nofix LINE_LABELS_CODE LINE_LABELS_CODE_FIX LINE_LABELS_CODE_NO_FIX
    (lines_verified hunk) ->
  has_label_in LINE_LABELS_CODE_NO_FIX hunk.
Proof.
  intros (l & Hl & _ & _ & Hnofix). apply Exists_exists. eauto.
Qed.

(** C2. With [CODE_FIX] and [CODE_NO_FIX] disjoint parts of [CODE], as the
    data model has them, [has_tangled_hunks] on a hunk is true exactly when
    the hunk has a label in [CODE_FIX] and a label in [CODE_NO_FIX],
    whatever offsets they map to; so it is false when one of the two kinds
    is missing, whatever other labels the hunk has. *)
Theorem has_tangled_hunks_iff_fix_and_nofix
    (hunk : Hunk) (commit_hash : string) :
  Forall (λ label, label ∈ LINE_LABELS_CODE) LINE_LABELS_CODE_FIX ->
  Forall (λ label, label ∈ LINE_LABELS_CODE) LINE_LABELS_CODE_NO_FIX ->
  Forall (λ label, label ∉ LINE_LABELS_CODE_NO_FIX) LINE_LABELS_CODE_FIX ->
  (has_tangled_hunks LINE_LABELS_CODE LINE_LABELS_CODE_FIX
     LINE_LABELS_CODE_NO_FIX [hunk] commit_hash = true
   ↔ has_label_in LINE_LABELS_CODE_FIX hunk
     ∧ has_label_in LINE_LABELS_CODE_NO_FIX hunk)
  ∧ (¬ has_label_in LINE_LABELS_CODE_FIX hunk
     ∨ ¬ has_label_in LINE_LABELS_CODE_NO_FIX hunk ->
     has_tangled_hunks LINE_LABELS_CODE LINE_LABELS_CODE_FIX
       LINE_LABELS_CODE_NO_FIX [hunk] commit_hash = false).
Proof.
  intros Hfix Hnofix Hdisjoint.
  rewrite Forall_forall in Hfix, Hnofix, Hdisjoint.
  assert (has_tangled_hunks LINE_LABELS_CODE LINE_LABELS_CODE_FIX
            LINE_LABELS_CODE_NO_FIX [hunk] commit_hash = true
          ↔ has_label_in LINE_LABELS_CODE_FIX hunk
            ∧ has_label_in LINE_LABELS_CODE_NO_FIX hunk) as Hiff.
  { rewrite has_tangled_hunks_spec. split.
    - intros (h & ->%list_elem_of_singleton & Hf & Hn).
      eauto using counted_fix_has_label, counted_nofix_has_label.
    - intros [(l & Hl & Hlfix)%Exists_exists (l' & Hl' & Hlnofix)%Exists_exists].
      exists hunk. split; [by apply list_elem_of_singleton|]. split.
      + exists l. auto.
      + exists l'. split; [done|]. split; [auto|]. split; [|done].
        intros Hboth. by apply (Hdisjoint l'). }
  split; [done|]. intros Hmissing.
  apply not_true_is_false. rewrite Hiff. tauto.
Qed.

(** C9. The marks are collected per hunk: when no single hunk has both a
    label in [CODE_FIX] and a label in [CODE_NO_FIX], [has_tangled_hunks]
    is false, also when one hunk has the one and another hunk the other. *)
Theorem has_tangled_hunks_resets_between_hunks
    (hunks : list Hunk) (commit_hash : string) :
  Forall (λ hunk, ¬ (has_label_in LINE_LABELS_CODE_FIX hunk
                     ∧ has_label_in LINE_LABELS_CODE_NO_FIX hunk)) hunks ->
  has_tangled_hunks LINE_LABELS_CODE LINE_LABELS_CODE_FIX
    LINE_LABELS_CODE_NO_FIX hunks commit_hash = false.
Proof.
  intros Hhunks. rewrite Forall_forall in Hhunks.
  apply not_true_is_false. rewrite has_tangled_hunks_spec.
  intros (hunk & Hhunk & Hf & Hn). apply (Hhunks hunk Hhunk).
  eauto using counted_fix_has_label, counted_nofix_has_label.
Qed.

End HunkDetectorProperties.

(** ** Properties of the commit selectors *)

Lemma validated_bugfix_with_one_parent_true (commit : Commit) :
  ListTangledCommits.validated_bugfix_with_one_parent commit = true
  ↔ ∃ d, labels commit = Some d
         ∧ d !! "validated_bugfix" = Some true
         ∧ length (parents commit) = 1%nat.
Proof.
  unfold ListTangledCommits.validated_bugfix_with_one_parent.
  destruct (labels commit) as [d|]; [|split; [done|by intros (? & ? & _)]].
  rewrite !andb_true_iff, bool_decide_eq_true, Nat.eqb_eq, elem_of_dom.
  split.
  - intros [[_ Hv] Hp]. exists d. by destruct (d !! "validated_bugfix") as [[]|].
  - intros (d' & [= <-] & Hv & Hp). by rewrite Hv.
Qed.

Lemma validated_bugfix_with_one_parent_same (commit : Commit) :
  ListTangledLines.validated_bugfix_with_one_parent commit
  = ListTangledCommits.validated_bugfix_with_one_parent commit.
Proof. done. Qed.

(** C4. A commit without labels, without a true [validated_bugfix] label, or
    with a number of parents other than one is not tangled: both commit
    selectors return [False] at once, whatever the detector. *)
Theorem unvalidated_or_merge_commit_is_not_tangled
    (db : Database) (commit : Commit)
    (tangle_func : list Hunk -> string -> Py bool) :
  labels commit = None
  ∨ (∃ d, labels commit = Some d ∧ d !! "validated_bugfix" ≠ Some true)
  ∨ length (parents commit) ≠ 1%nat ->
  ListTangledCommits.is_commit_tangled db commit tangle_func
  = ([], Ok (Some false))
  ∧ ListTangledLines.is_tangled db commit = ([], Ok (Some false)).
Proof.
  intros Hcommit.
  assert (ListTangledCommits.validated_bugfix_with_one_parent commit = false)
    as Hcond.
  { apply not_true_is_false.
    rewrite validated_bugfix_with_one_parent_true.
    intros (d & Hd & Hv & Hp).
    destruct Hcommit as [Hnone|[(d' & Hd' & Hv')|Hp']]; [congruence| |done].
    rewrite Hd in Hd'. by injection Hd' as <-. }
  assert (ListTangledLines.validated_bugfix_with_one_parent commit = false)
    as Hcond' by exact Hcond.
  unfold ListTangledCommits.is_commit_tangled, ListTangledLines.is_tangled.
  by rewrite Hcond, Hcond'.
Qed.


Section Selectors.

Variables (db : Database) (commit : Commit).

Lemma commits_scan_skips (tangle_func : list Hunk -> string -> Py bool)
    (pre rest : list FileAction) :
  Forall (resolves (ListTangledCommits.get_changed_file db) out_of_scope true)
    pre ->
  ListTangledCommits.scan_file_actions db commit tangle_func (pre ++ rest)
  = bind (resolve_each (ListTangledCommits.get_changed_file db) pre)
      (λ _, ListTangledCommits.scan_file_actions db commit tangle_func rest).
Proof.
  induction 1 as [|fa pre (file & Hfile & Hskip) _ IH];
    cbn [app resolve_each ListTangledCommits.scan_file_actions].
  - by rewrite bind_ret.
  - rewrite bind_assoc.
    destruct (ListTangledCommits.get_changed_file db fa) as [t r].
    cbn [snd] in Hfile. subst r. rewrite !bind_ok.
    unfold out_of_scope in Hskip. by rewrite Hskip, IH.
Qed.

Lemma lines_scan_skips (pre rest : list FileAction) :
  Forall (resolves (ListTangledLines.changed_file db)
            ListTangledLines.skipped true) pre ->
  ListTangledLines.scan_file_actions db commit (pre ++ rest)
  = bind (resolve_each (ListTangledLines.changed_file db) pre)
      (λ _, ListTangledLines.scan_file_actions db commit rest).
Proof.
  induction 1 as [|fa pre (file & Hfile & Hskip) _ IH];
    cbn [app resolve_each ListTangledLines.scan_file_actions].
  - by rewrite bind_ret.
  - rewrite bind_assoc.
    destruct (ListTangledLines.changed_file db fa) as [t r].
    cbn [snd] in Hfile. subst r. rewrite !bind_ok.
    by rewrite Hskip, IH.
Qed.

End Selectors.

Lemma resolve_each_ok (resolve : FileAction -> Py File) (skip : File -> bool)
    (b : bool) (l : list FileAction) :
  Forall (resolves resolve skip b) l ->
  ∃ t, resolve_each resolve l = (t, Ok tt).
Proof.
  induction 1 as [|fa l (file & Hfile & _) _ [t IH]]; cbn [resolve_each].
  - by eexists.
  - destruct (resolve fa) as [t' r]. cbn [snd] in Hfile. subst r.
    rewrite bind_ok, IH. by eexists.
Qed.


(** C7. For a validated bug fix with one parent whose file actions all resolve
    to files out of scope, [is_commit_tangled] reaches the end of its loop and
    returns [None]; the loop of [find_tangled_commits] takes [None] as false
    and goes on to the next commit with [tangled_commits] unchanged. *)
Theorem commit_without_in_scope_file_is_not_listed
    (db : Database) (commit : Commit)
    (tangle_func : list Hunk -> string -> Py bool)
    (project : Project) (rest : list Commit)
    (tangled_commits : list (string * string)) :
  ListTangledCommits.validated_bugfix_with_one_parent commit = true ->
  Forall (resolves (ListTangledCommits.get_changed_file db) out_of_scope true)
    (file_actions_of db commit) ->
  (ListTangledCommits.is_commit_tangled db commit tangle_func).2 = Ok None
  ∧ ListTangledCommits.is_true None = false
  ∧ ListTangledCommits.scan_commits db tangle_func project (commit :: rest)
      tangled_commits
    = (do ListTangledCommits.is_commit_tangled db commit tangle_func ;;
       ListTangledCommits.scan_commits db tangle_func project rest
         tangled_commits).
Proof.
  intros Hvalid Hfas.
  assert (∃ t, ListTangledCommits.is_commit_tangled db commit tangle_func
               = (t, Ok None)) as [t Hrun].
  { unfold ListTangledCommits.is_commit_tangled. rewrite Hvalid.
    unfold objects, emit. rewrite bind_assoc, bind_ok, bind_ret.
    fold (file_actions_of db commit).
    rewrite <- (app_nil_r (file_actions_of db commit)).
    rewrite commits_scan_skips by done.
    destruct (resolve_each_ok _ _ _ _ Hfas) as [t' ->].
    rewrite bind_ok. cbn. by eexists. }
  split; [by rewrite Hrun|]. split; [done|].
  cbn [ListTangledCommits.scan_commits]. rewrite Hrun, !bind_ok. done.
Qed.

(** C8. With a granularity other than ["hunk"] and ["line"],
    [find_tangled_commits] raises [ValueError] with an empty trace: before
    [connect_to_db] and before any query. [main] ends with that exception
    without printing anything. *)
Theorem unknown_granularity_fails_before_any_access
    (PROJECTS LINE_LABELS_CODE LINE_LABELS_CODE_FIX LINE_LABELS_CODE_NO_FIX
       : list string)
    (db : Database) (tangle_granularity : string) :
  tangle_granularity ≠ "hunk" ->
  tangle_granularity ≠ "line" ->
  ListTangledCommits.find_tangled_commits PROJECTS LINE_LABELS_CODE
    LINE_LABELS_CODE_FIX LINE_LABELS_CODE_NO_FIX db tangle_granularity
  = ([], Raise (ValueError ("Unknown tangle granularity: "
                            ++ tangle_granularity)))
  ∧ ListTangledCommits.main PROJECTS LINE_LABELS_CODE LINE_LABELS_CODE_FIX
      LINE_LABELS_CODE_NO_FIX db tangle_granularity
    = ([], Raise (ValueError ("Unknown tangle granularity: "
                              ++ tangle_granularity))).
Proof.
  intros Hhunk Hline.
  apply String.eqb_neq in Hhunk, Hline.
  unfold ListTangledCommits.main, ListTangledCommits.find_tangled_commits.
  by rewrite Hhunk, Hline.
Qed.

(** C6, as amended. [get_changed_file] of [list_tangled_commits.py] takes the
    new file whenever [file_id] is present and the old file otherwise.
    [is_tangled] of [list_tangled_lines.py] takes the new file for a rename
    (mode ["R"]) and when there is no old file, and otherwise the old file,
    also when [file_id] is present. For a rename from [A] to [B] both use
    [B]. *)
Theorem changed_file_resolution
    (db : Database) (fa : FileAction) (new old : ObjectId)
    (file_new file_old : File) :
  (ListTangledCommits.File_get db (Some new)).2 = Ok file_new ->
  (ListTangledCommits.File_get db (Some old)).2 = Ok file_old ->
  (file_id fa = Some new ->
   (ListTangledCommits.get_changed_file db fa).2 = Ok file_new)
  ∧ (file_id fa = None -> old_file_id fa = Some old ->
     (ListTangledCommits.get_changed_file db fa).2 = Ok file_old)
  ∧ (file_id fa = Some new -> old_file_id fa = Some old -> mode fa = "R" ->
     (ListTangledLines.changed_file db fa).2 = Ok file_new)
  ∧ (file_id fa = Some new -> old_file_id fa = None ->
     (ListTangledLines.changed_file db fa).2 = Ok file_new)
  ∧ (old_file_id fa = Some old -> mode fa ≠ "R" ->
     (ListTangledLines.changed_file db fa).2 = Ok file_old).
Proof.
  intros Hnew Hold.
  assert (∀ id, ListTangledLines.File_get db id
                = ListTangledCommits.File_get db id) as Hsame by done.
  unfold ListTangledCommits.get_changed_file, ListTangledLines.changed_file.
  repeat split.
  - by intros ->.
  - by intros -> ->.
  - intros -> -> ->. rewrite !Hsame.
    destruct (ListTangledCommits.File_get db (Some old)) as [t r].
    cbn [snd] in Hold. subst r. rewrite bind_assoc, bind_ok, bind_ret.
    cbn [String.eqb Ascii.eqb Bool.eqb fst snd]. done.
  - intros -> ->. by rewrite bind_ret, Hsame.
  - intros -> Hmode%String.eqb_neq. rewrite !Hsame.
    destruct (ListTangledCommits.File_get db (Some old)) as [t r].
    cbn [snd] in Hold. subst r. rewrite bind_assoc, bind_ok, bind_ret.
    by rewrite Hmode.
Qed.

(** C10, as amended. The two file filters agree on every path that does not
    end with ["Tests.java"] and that contains ["src/test"] exactly when it
    contains ["test/"] or ["tests/"]. *)
Theorem file_filters_agree_outside_test_names (file : File) :
  endswith (path file) "Tests.java" = false ->
  contains "src/test" (path file)
  = contains "test/" (path file) || contains "tests/" (path file) ->
  out_of_scope file = ListTangledLines.skipped file.
Proof.
  intros Htests Hdir.
  unfold out_of_scope, ListTangledLines.skipped,
    ListTangledCommits.is_java_file, ListTangledCommits.is_test_file.
  rewrite Htests, Hdir.
  destruct (endswith (path file) ".java"),
    (contains "test/" (path file)), (contains "tests/" (path file)),
    (endswith (path file) "Test.java"); done.
Qed.

(** ** The properties on the example data *)

Section OnExamples.

Import Examples.

Local Ltac by_decision := apply (bool_decide_unpack _); vm_compute; exact I.

(** The example of the specification: two labels on line ["a"]. *)
Lemma two_labels_on_a_line_are_reported :
  ∃ a b line,
    ListTangledCommits.has_tangled_lines [hunk_two_on_a_line] "c100"
    = ([Stdout (TangledLineIn "c100" line); Stdout (FoundLabel (Some a) b)],
       Ok true)
    ∧ ((a = "bugfix" ∧ b = "documentation")
       ∨ (a = "documentation" ∧ b = "bugfix")).
Proof.
  destruct (has_tangled_lines_reports_first_collision
              hunk_two_on_a_line "c100" "bugfix" "documentation" 0)
    as (a & b & line & j & pre & post & Hrun & _ & _ & _ & _ & _ & _ & _ & _
        & Honly).
  - by_decision.
  - by_decision.
  - done.
  - exists [0]. split; by_decision.
  - exists [0]. split; by_decision.
  - exists a, b, line. split; [exact Hrun|]. apply Honly.
    intros label Hlabel. cbn in Hlabel.
    apply elem_of_cons in Hlabel as [->|Hlabel]; [by left|].
    apply list_elem_of_singleton in Hlabel as ->. by right.
Defined.

(** The labels "refactoring" and "documentation" both list line 0, and the
    pair reported is "bugfix" and "refactoring". *)
Lemma third_label_on_a_line_is_not_reported :
  lists (lines_verified hunk_three_on_a_line) "refactoring" 0
  ∧ lists (lines_verified hunk_three_on_a_line) "documentation" 0
  ∧ ListTangledCommits.has_tangled_lines [hunk_three_on_a_line] "c100"
    = ([Stdout (TangledLineIn "c100" "a");
        Stdout (FoundLabel (Some "bugfix") "refactoring")], Ok true)
  ∧ without_dump
      (ListTangledLines.has_tangled_lines [hunk_three_on_a_line] "c100").1
    = [Stdout (TangledLineIn "c100" "a");
       Stdout (FoundLabel (Some "bugfix") "refactoring")]
  ∧ ¬ (("bugfix" = "refactoring" ∧ "refactoring" = "documentation")
       ∨ ("bugfix" = "documentation" ∧ "refactoring" = "refactoring")).
Proof.
  split; [exists [0]; split; by_decision|].
  split; [exists [0]; split; by_decision|].
  split; [by vm_compute|]. split; [by vm_compute|].
  by intros [[? _]|[? _]].
Qed.

(** With an empty label first, the collision on line 0 goes unseen. *)
Example empty_label_is_not_an_owner :
  ListTangledCommits.has_tangled_lines [hunk_empty_label] "c100"
  = ([], Ok false).
Proof. by vm_compute. Qed.

(** A label that lists a line twice collides with itself. *)
Example repeated_offset_collides_with_itself :
  ListTangledCommits.has_tangled_lines [hunk_repeated_offset] "c100"
  = ([Stdout (TangledLineIn "c100" "a");
      Stdout (FoundLabel (Some "bugfix") "bugfix")], Ok true).
Proof. by vm_compute. Qed.

(** A negative offset on the empty [line_labels] is out of range. *)
Example negative_offset_raises :
  ListTangledCommits.has_tangled_lines
    [hunk_of 12%N [("bugfix", [-1])]] "c100" = ([], Raise IndexError).
Proof. by vm_compute. Qed.

(** Two labels on offset 5 of a three-line hunk: the line to print does not
    exist, and [IndexError] ends the detection in both scripts. *)
Lemma repeated_offset_beyond_content_raises :
  ListTangledCommits.has_tangled_lines [hunk_two_beyond] "c100"
  = ([], Raise IndexError)
  ∧ ListTangledLines.has_tangled_lines [hunk_two_beyond] "c100"
    = ([Stdout (LineHasLabel 5 "bugfix" None);
        Stdout (LineHasLabel 5 "documentation" (Some "bugfix"))],
       Raise IndexError).
Proof. split; by vm_compute. Qed.

(** The example of the specification: tangled as a hunk, not by line. *)
Lemma fix_and_nofix_on_different_lines :
  ListTangledCommits.has_tangled_hunks CODE CODE_FIX CODE_NO_FIX
    [hunk_fix_and_nofix] "c100" = true
  ∧ ListTangledCommits.has_tangled_hunks CODE CODE_FIX CODE_NO_FIX
      [hunk_fix_only] "c100" = false.
Proof.
  destruct (has_tangled_hunks_iff_fix_and_nofix CODE CODE_FIX CODE_NO_FIX
              hunk_fix_and_nofix "c100") as [Hiff _]; [by_decision..|].
  destruct (has_tangled_hunks_iff_fix_and_nofix CODE CODE_FIX CODE_NO_FIX
              hunk_fix_only "c100") as [_ Hfalse]; [by_decision..|].
  split.
  - apply Hiff. split; by_decision.
  - apply Hfalse. right. by_decision.
Defined.

(** A fix label in one hunk and a non-fix label in the next. *)
Lemma fix_and_nofix_in_different_hunks :
  ListTangledCommits.has_tangled_hunks CODE CODE_FIX CODE_NO_FIX
    [hunk_fix_only; hunk_nofix_only] "c100" = false.
Proof.
  apply has_tangled_hunks_resets_between_hunks. by_decision.
Defined.

(** A validated bug fix with two parents. *)
Lemma merge_commit_is_not_tangled :
  ListTangledCommits.is_commit_tangled db commit_merge
    ListTangledCommits.has_tangled_lines = ([], Ok (Some false))
  ∧ ListTangledLines.is_tangled db commit_merge = ([], Ok (Some false)).
Proof.
  apply unvalidated_or_merge_commit_is_not_tangled.
  right. right. cbn. lia.
Defined.


(** A commit that touches a test file only. *)
Lemma test_only_commit_is_not_listed :
  (ListTangledCommits.is_commit_tangled db commit_101
     ListTangledCommits.has_tangled_lines).2 = Ok None
  ∧ (ListTangledCommits.scan_commits db ListTangledCommits.has_tangled_lines
       project_1 [commit_101] []).2 = Ok [].
Proof.
  destruct (commit_without_in_scope_file_is_not_listed db commit_101
              ListTangledCommits.has_tangled_lines project_1 [] [])
    as (Hnone & _ & Hstep).
  - by vm_compute.
  - constructor; [|constructor]. exists test_file. by vm_compute.
  - split; [exact Hnone|]. rewrite Hstep.
    destruct (ListTangledCommits.is_commit_tangled db commit_101
                ListTangledCommits.has_tangled_lines) as [t r].
    cbn [snd] in Hnone. subst r. by rewrite bind_ok.
Defined.

Lemma granularity_file_is_rejected :
  ListTangledCommits.find_tangled_commits ["ant-ivy"] CODE CODE_FIX
    CODE_NO_FIX db "file"
  = ([], Raise (ValueError "Unknown tangle granularity: file")).
Proof.
  by destruct (unknown_granularity_fails_before_any_access ["ant-ivy"] CODE
                 CODE_FIX CODE_NO_FIX db "file") as [-> _].
Defined.

(** A rename from [A.java] to [B.java]: both scripts use [B.java]. *)
Lemma renamed_file_resolves_to_new_path :
  (ListTangledCommits.get_changed_file db fa_rename).2 = Ok file_B
  ∧ (ListTangledLines.changed_file db fa_rename).2 = Ok file_B.
Proof.
  destruct (changed_file_resolution db fa_rename 4%N 3%N file_B file_A)
    as (Hnew & _ & Hrename & _); [by vm_compute..|].
  split; [by apply Hnew|by apply Hrename].
Defined.

(** A copy from [A.java] to [B.java]: [file_id] is present, and
    [list_tangled_lines.py] uses the old file [A.java]. *)
Lemma copied_file_resolves_to_old_path :
  file_id fa_copy = Some 4%N
  ∧ (ListTangledLines.changed_file db fa_copy).2 = Ok file_A
  ∧ (ListTangledCommits.get_changed_file db fa_copy).2 = Ok file_B.
Proof. by vm_compute. Qed.

Lemma source_file_passes_both_filters :
  out_of_scope source_file = ListTangledLines.skipped source_file.
Proof.
  apply file_filters_agree_outside_test_names; by vm_compute.
Defined.

(** A path ending in ["Tests.java"] is a test file for
    [list_tangled_commits.py] and in scope for [list_tangled_lines.py]. *)
Lemma file_filters_differ :
  let file := {| File_id := 5%N; path := "src/main/java/FooTests.java" |} in
  out_of_scope file = true ∧ ListTangledLines.skipped file = false.
Proof. by vm_compute. Qed.

(** So is a path under ["test/"] that is not under ["src/test"]; a path
    under ["src/testing/"] is the other way round. *)
Example file_filters_differ_on_directories :
  let under_test := {| File_id := 6%N; path := "test/Foo.java" |} in
  let under_testing :=
    {| File_id := 7%N; path := "src/testing/Foo.java" |} in
  out_of_scope under_test = true
  ∧ ListTangledLines.skipped under_test = false
  ∧ out_of_scope under_testing = false
  ∧ ListTangledLines.skipped under_testing = true.
Proof. by vm_compute. Qed.

End OnExamples.

(** ** More on the line detector *)

Lemma bind_nil_ok {A B : Type} (a : A) (k : A -> Py B) :
  bind ([], Ok a) k = k a.
Proof. apply bind_ret. Qed.

Lemma list_getitem_cases {X : Type} (l : list X) (i : Z) :
  (∃ x, list_getitem l i = Ok x) ∨ list_getitem l i = Raise IndexError.
Proof.
  unfold list_getitem. destruct (list_index l i) as [k|]; [|by right].
  destruct (l !! k); [left; by eexists|by right].
Qed.

Lemma list_setitem_cases {X : Type} (l : list X) (i : Z) (x : X) :
  (∃ l', list_setitem l i x = Ok l') ∨ list_setitem l i x = Raise IndexError.
Proof.
  unfold list_setitem. destruct (list_index l i); [left; by eexists|by right].
Qed.

Lemma scan_pairs_shape (commit_hash : string)
    (hunk_content_by_line : list string) (ps : list (string * Z))
    (line_labels : list (option string)) :
  let m := scan_pairs commit_hash hunk_content_by_line ps line_labels in
  (∃ line_labels', m = ([], Ok (Continue line_labels')))
  ∨ m = ([], Raise IndexError)
  ∨ ∃ line a b,
      m = ([Stdout (TangledLineIn commit_hash line);
            Stdout (FoundLabel (Some a) b)], Ok (Return true))
      ∧ a ≠ "".
Proof.
  revert line_labels. induction ps as [|[label i] ps IH]; intros line_labels.
  - left. by eexists.
  - cbn [scan_pairs]. unfold DefaultList.getitem.
    destruct (list_getitem_cases (DefaultList.fill line_labels i) i)
      as [[o ->]| ->]; [|right; by left].
    rewrite bind_lift_ok. destruct (truthy o) eqn:Ho.
    + destruct (list_getitem_cases hunk_content_by_line i)
        as [[line ->]| ->]; [|right; by left].
      right. right. destruct o as [a|]; [|done].
      exists line, a, label. split; [done|]. by intros ->.
    + unfold DefaultList.setitem.
      destruct (list_setitem_cases (DefaultList.fill
                                      (DefaultList.fill line_labels i) i)
                  i (Some label)) as [[l' ->]| ->]; [|right; by left].
      rewrite bind_lift_ok. apply IH.
Qed.

Lemma has_tangled_lines_shape (hunks : list Hunk) (commit_hash : string) :
  ListTangledCommits.has_tangled_lines hunks commit_hash = ([], Ok false)
  ∨ ListTangledCommits.has_tangled_lines hunks commit_hash
    = ([], Raise IndexError)
  ∨ ∃ line a b,
      ListTangledCommits.has_tangled_lines hunks commit_hash
      = ([Stdout (TangledLineIn commit_hash line);
          Stdout (FoundLabel (Some a) b)], Ok true)
      ∧ a ≠ "".
Proof.
  induction hunks as [|hunk hunks IH]; [by left|].
  cbn [ListTangledCommits.has_tangled_lines]. rewrite scan_labels_pairs.
  destruct (scan_pairs_shape commit_hash (splitlines (content hunk))
              (pairs (lines_verified hunk)) [])
    as [[l ->]|[->|(line & a & b & -> & Ha)]].
  - by rewrite bind_nil_ok.
  - right. by left.
  - right. right. by exists line, a, b.
Qed.

(** X3. On every input [list_tangled_lines.has_tangled_lines] ends as
    [list_tangled_commits.has_tangled_lines] does, with the same boolean or
    the same exception, and prints the same lines in the same order, with
    its per-offset dump and blank lines in between. *)
Theorem line_detectors_agree (hunks : list Hunk) (commit_hash : string) :
  (ListTangledLines.has_tangled_lines hunks commit_hash).2
  = (ListTangledCommits.has_tangled_lines hunks commit_hash).2
  ∧ List.filter (λ e, negb (is_dump e))
      (ListTangledLines.has_tangled_lines hunks commit_hash).1
    = (ListTangledCommits.has_tangled_lines hunks commit_hash).1.
Proof. apply has_tangled_lines_same. Qed.

(** ** More on the hunk detector *)

Section HunkDetectorMore.

Import ListTangledCommits.

Variables LINE_LABELS_CODE LINE_LABELS_CODE_FIX LINE_LABELS_CODE_NO_FIX
  : list string.

Abbreviation tangled :=
  (has_tangled_hunks LINE_LABELS_CODE LINE_LABELS_CODE_FIX
     LINE_LABELS_CODE_NO_FIX).

(** X4. Whatever the three label collections are, [has_tangled_hunks] is
    true exactly when some hunk has a label that is in [LINE_LABELS_CODE] and
    in [LINE_LABELS_CODE_FIX], and a label that is in [LINE_LABELS_CODE] and
    in [LINE_LABELS_CODE_NO_FIX] but not in [LINE_LABELS_CODE_FIX]: a label
    outside [LINE_LABELS_CODE] counts for nothing, and a label in both other
    collections counts as a fix only. *)
Theorem has_tangled_hunks_exactly (hunks : list Hunk) (commit_hash : string) :
  tangled hunks commit_hash = true
  ↔ ∃ hunk l1 l2,
      hunk ∈ hunks
      ∧ l1 ∈ (lines_verified hunk).*1
      ∧ l1 ∈ LINE_LABELS_CODE ∧ l1 ∈ LINE_LABELS_CODE_FIX
      ∧ l2 ∈ (lines_verified hunk).*1
      ∧ l2 ∈ LINE_LABELS_CODE ∧ (l2 ∉ LINE_LABELS_CODE_FIX)
      ∧ l2 ∈ LINE_LABELS_CODE_NO_FIX.
Proof.
  rewrite has_tangled_hunks_spec. unfold counted_fix, counted_nofix. split.
  - intros (hunk & Hhunk & (l1 & ? & ? & ?) & (l2 & ? & ? & ? & ?)).
    by exists hunk, l1, l2.
  - intros (hunk & l1 & l2 & ? & ? & ? & ? & ? & ? & ? & ?).
    exists hunk. split; [done|]. split; [by exists l1|by exists l2].
Qed.

(** X5. The answer of [has_tangled_hunks] depends only on which sets of
    labels occur as the label set of a hunk: not on the offsets, the
    content, the commit hash, the order of the labels in a mapping, or the
    order and multiplicity of the hunks. *)
Theorem has_tangled_hunks_depends_on_label_sets_only
    (hunks hunks' : list Hunk) (commit_hash commit_hash' : string) :
  Forall (λ hunk,
            Exists (λ hunk', ∀ l, l ∈ (lines_verified hunk).*1
                                  ↔ l ∈ (lines_verified hunk').*1) hunks')
    hunks ->
  Forall (λ hunk',
            Exists (λ hunk, ∀ l, l ∈ (lines_verified hunk).*1
                                 ↔ l ∈ (lines_verified hunk').*1) hunks)
    hunks' ->
  tangled hunks commit_hash = tangled hunks' commit_hash'.
Proof.
  intros Hto Hfrom. rewrite Forall_forall in Hto, Hfrom.
  assert (∀ hs hs' c c',
            (∀ h, h ∈ hs ->
               Exists (λ h', ∀ l, l ∈ (lines_verified h).*1
                                  ↔ l ∈ (lines_verified h').*1) hs') ->
            tangled hs c = true -> tangled hs' c' = true) as Hmono.
  { intros hs hs' c c' Hall.
    rewrite !has_tangled_hunks_spec. unfold counted_fix, counted_nofix.
    intros (h & Hh & (l1 & ? & ? & ?) & (l2 & ? & ? & ? & ?)).
    apply Hall, Exists_exists in Hh as (h' & Hh' & Hsame).
    exists h'. split; [done|].
    split; [exists l1|exists l2]; rewrite <- Hsame; done. }
  destruct (tangled hunks commit_hash) eqn:E.
  - symmetry. by apply (Hmono hunks hunks' commit_hash).
  - symmetry. apply not_true_is_false. intros E'.
    rewrite (Hmono hunks' hunks commit_hash' commit_hash) in E; [done| |done].
    intros h' Hh'. apply Hfrom in Hh'.
    apply Exists_exists in Hh' as (h & Hh & Hsame).
    apply Exists_exists. exists h. split; [done|]. intros l. by rewrite Hsame.
Qed.

(** X6. [has_tangled_hunks] on two lists of hunks one after the other is
    the disjunction of its answers on each. *)
Theorem has_tangled_hunks_app (hunks hunks' : list Hunk)
    (commit_hash : string) :
  tangled (hunks ++ hunks') commit_hash
  = tangled hunks commit_hash || tangled hunks' commit_hash.
Proof.
  induction hunks as [|hunk hunks IH]; [done|].
  cbn [app has_tangled_hunks].
  pose proof (scan_hunk_labels_spec LINE_LABELS_CODE LINE_LABELS_CODE_FIX
                LINE_LABELS_CODE_NO_FIX (lines_verified hunk) ∅) as Hscan.
  destruct (scan_hunk_labels _ _ _ (lines_verified hunk) ∅) as [seen|b];
    [done|].
  destruct Hscan as [-> _]; [set_solver..|done].
Qed.

End HunkDetectorMore.

(** ** More on the commit selectors *)

Lemma bind_snd_ok {A B : Type} (m : Py A) (k : A -> Py B) (b : B) :
  (bind m k).2 = Ok b -> ∃ a, m.2 = Ok a ∧ (k a).2 = Ok b.
Proof.
  destruct m as [t [a|e]]; [|done]. rewrite bind_ok. cbn [snd]. eauto.
Qed.

Lemma bind_snd_raise {A B : Type} (m : Py A) (k : A -> Py B) (e : exn) :
  m.2 = Raise e -> (bind m k).2 = Raise e.
Proof. destruct m as [t r]. cbn [snd]. by intros ->. Qed.

Lemma bind_snd {A B : Type} (m : Py A) (k : A -> Py B) (a : A) :
  m.2 = Ok a -> (bind m k).2 = (k a).2.
Proof. destruct m as [t r]. cbn [snd]. intros ->. by rewrite bind_ok. Qed.

(** [File.objects(id=id).get()] with an [ObjectId] makes one query and
    finds a document of the collection, or raises. *)
Lemma File_get_eq (db : Database) (id : ObjectId) :
  ListTangledCommits.File_get db (Some id)
  = ([Read (File_by_id (Some id))],
     match List.filter (λ f, bool_decide (Some (File_id f) = Some id))
             (File_objects db) with
     | [] => Raise DoesNotExist
     | [file] => Ok file
     | _ :: _ :: _ => Raise MultipleObjectsReturned
     end).
Proof.
  unfold ListTangledCommits.File_get, objects, emit.
  rewrite bind_assoc, bind_ok, bind_ret.
  by destruct (List.filter _ _) as [|file [|]].
Qed.

Lemma File_get_None (db : Database) :
  ListTangledCommits.File_get db None = ([], Raise ValidationError).
Proof. done. Qed.

Lemma File_get_found (db : Database) (id : option ObjectId) (file : File) :
  (ListTangledCommits.File_get db id).2 = Ok file -> file ∈ File_objects db.
Proof.
  destruct id as [id|]; [|done].
  rewrite File_get_eq. cbn [snd].
  destruct (List.filter _ _) as [|f [|]] eqn:E; [done| |done].
  intros [= ->]. apply list_elem_of_In.
  eapply (proj1 (List.filter_In _ _ _)). rewrite E. by left.
Qed.

Section SelectorsMore.

Variables (db : Database) (commit : Commit).

Lemma commits_scan_inversion (tangle_func : list Hunk -> string -> Py bool)
    (file_actions : list FileAction) (b : bool) :
  (ListTangledCommits.scan_file_actions db commit tangle_func file_actions).2
  = Ok (Some b) ->
  ∃ pre fa post file,
    file_actions = pre ++ fa :: post
    ∧ Forall (resolves (ListTangledCommits.get_changed_file db) out_of_scope
                true) pre
    ∧ (ListTangledCommits.get_changed_file db fa).2 = Ok file
    ∧ out_of_scope file = false
    ∧ (tangle_func
         (List.filter (λ h, bool_decide (file_action_id h = FileAction_id fa))
            (Hunk_objects db))
         (revision_hash commit)).2 = Ok b.
Proof.
  induction file_actions as [|fa fas IH]; [done|].
  cbn [ListTangledCommits.scan_file_actions].
  intros (file & Hfile & Hrest)%bind_snd_ok.
  fold (out_of_scope file) in Hrest.
  destruct (out_of_scope file) eqn:Hscope.
  - destruct (IH Hrest) as (pre & fa' & post & file' & -> & Hpre & ?).
    exists (fa :: pre), fa', post, file'. split; [done|]. split; [|done].
    constructor; [by exists file|done].
  - exists [], fa, fas, file. split; [done|]. split; [constructor|].
    split; [done|]. split; [done|].
    unfold objects, emit in Hrest.
    rewrite bind_assoc, bind_ok, bind_ret in Hrest. cbn [snd] in Hrest.
    apply bind_snd_ok in Hrest as (b' & Hb' & [= ->]). done.
Qed.

Lemma lines_scan_inversion (file_actions : list FileAction) (b : bool) :
  (ListTangledLines.scan_file_actions db commit file_actions).2
  = Ok (Some b) ->
  ∃ pre fa post file,
    file_actions = pre ++ fa :: post
    ∧ Forall (resolves (ListTangledLines.changed_file db)
                ListTangledLines.skipped true) pre
    ∧ (ListTangledLines.changed_file db fa).2 = Ok file
    ∧ ListTangledLines.skipped file = false
    ∧ (ListTangledLines.has_tangled_lines
         (List.filter (λ h, bool_decide (file_action_id h = FileAction_id fa))
            (Hunk_objects db))
         (revision_hash commit)).2 = Ok b.
Proof.
  induction file_actions as [|fa fas IH]; [done|].
  cbn [ListTangledLines.scan_file_actions].
  intros (file & Hfile & Hrest)%bind_snd_ok.
  destruct (ListTangledLines.skipped file) eqn:Hscope.
  - destruct (IH Hrest) as (pre & fa' & post & file' & -> & Hpre & ?).
    exists (fa :: pre), fa', post, file'. split; [done|]. split; [|done].
    constructor; [by exists file|done].
  - exists [], fa, fas, file. split; [done|]. split; [constructor|].
    split; [done|]. split; [done|].
    unfold objects, emit in Hrest.
    rewrite bind_assoc, bind_ok, bind_ret in Hrest. cbn [snd] in Hrest.
    apply bind_snd_ok in Hrest as (b' & Hb' & [= ->]). done.
Qed.

End SelectorsMore.

(** X7. [is_commit_tangled] answers [True] only for a validated bug fix with
    one parent that has a file action whose file is in scope, with every file
    action before it resolved to a file out of scope, and on whose hunks the
    detector answered [True]. *)
Theorem tangled_commit_has_tangled_in_scope_file
    (db : Database) (commit : Commit)
    (tangle_func : list Hunk -> string -> Py bool) :
  (ListTangledCommits.is_commit_tangled db commit tangle_func).2
  = Ok (Some true) ->
  ListTangledCommits.validated_bugfix_with_one_parent commit = true
  ∧ ∃ pre fa post file,
      file_actions_of db commit = pre ++ fa :: post
      ∧ Forall (resolves (ListTangledCommits.get_changed_file db) out_of_scope
                  true) pre
      ∧ (ListTangledCommits.get_changed_file db fa).2 = Ok file
      ∧ ListTangledCommits.is_java_file file = true
      ∧ ListTangledCommits.is_test_file file = false
      ∧ (tangle_func
           (List.filter
              (λ h, bool_decide (file_action_id h = FileAction_id fa))
              (Hunk_objects db))
           (revision_hash commit)).2 = Ok true.
Proof.
  unfold ListTangledCommits.is_commit_tangled.
  destruct (ListTangledCommits.validated_bugfix_with_one_parent commit);
    [|done].
  intros Hrun. split; [done|].
  unfold objects, emit in Hrun.
  rewrite bind_assoc, bind_ok, bind_ret in Hrun. cbn [snd] in Hrun.
  apply commits_scan_inversion in Hrun
    as (pre & fa & post & file & Hfas & Hpre & Hfile & Hscope & Hdetect).
  exists pre, fa, post, file. unfold out_of_scope in Hscope.
  apply orb_false_iff in Hscope as [Hjava%negb_false_iff Htest]. done.
Qed.

(** X8. [is_tangled] of [list_tangled_lines.py] answers [True] only for a
    validated bug fix with one parent that has a file action whose file it
    does not skip, with every file action before it resolved to a skipped
    file, and on whose hunks [has_tangled_lines] answered [True]. *)
Theorem tangled_commit_has_tangled_line_in_scope_file
    (db : Database) (commit : Commit) :
  (ListTangledLines.is_tangled db commit).2 = Ok (Some true) ->
  ListTangledLines.validated_bugfix_with_one_parent commit = true
  ∧ ∃ pre fa post file,
      file_actions_of db commit = pre ++ fa :: post
      ∧ Forall (resolves (ListTangledLines.changed_file db)
                  ListTangledLines.skipped true) pre
      ∧ (ListTangledLines.changed_file db fa).2 = Ok file
      ∧ ListTangledLines.skipped file = false
      ∧ (ListTangledLines.has_tangled_lines
           (List.filter
              (λ h, bool_decide (file_action_id h = FileAction_id fa))
              (Hunk_objects db))
           (revision_hash commit)).2 = Ok true.
Proof.
  unfold ListTangledLines.is_tangled.
  destruct (ListTangledLines.validated_bugfix_with_one_parent commit);
    [|done].
  intros Hrun. split; [done|].
  unfold objects, emit in Hrun.
  rewrite bind_assoc, bind_ok, bind_ret in Hrun. cbn [snd] in Hrun.
  by apply lines_scan_inversion in Hrun.
Qed.

(** X9. A file action with neither [file_id] nor [old_file_id] that is
    reached before any in-scope file action is not skipped: both selectors
    ask for the file with id [None], which is rejected, and end with
    [ValidationError]. *)
Theorem file_action_without_file_aborts_selector
    (db : Database) (commit : Commit)
    (tangle_func : list Hunk -> string -> Py bool)
    (pre post : list FileAction) (fa : FileAction) :
  ListTangledCommits.validated_bugfix_with_one_parent commit = true ->
  file_actions_of db commit = pre ++ fa :: post ->
  file_id fa = None ->
  old_file_id fa = None ->
  (Forall (resolves (ListTangledCommits.get_changed_file db) out_of_scope true)
     pre ->
   (ListTangledCommits.is_commit_tangled db commit tangle_func).2
   = Raise ValidationError)
  ∧ (Forall (resolves (ListTangledLines.changed_file db)
               ListTangledLines.skipped true) pre ->
     (ListTangledLines.is_tangled db commit).2 = Raise ValidationError).
Proof.
  intros Hvalid Hfas Hnew Hold. split; intros Hpre.
  - unfold ListTangledCommits.is_commit_tangled. rewrite Hvalid.
    unfold objects, emit. rewrite bind_assoc, bind_ok, bind_ret. cbn [snd].
    fold (file_actions_of db commit). rewrite Hfas.
    rewrite commits_scan_skips by done.
    destruct (resolve_each_ok _ _ _ _ Hpre) as [t ->]. rewrite bind_ok.
    cbn [snd ListTangledCommits.scan_file_actions].
    apply bind_snd_raise. unfold ListTangledCommits.get_changed_file.
    by rewrite Hnew, Hold, File_get_None.
  - unfold ListTangledLines.is_tangled.
    rewrite validated_bugfix_with_one_parent_same, Hvalid.
    unfold objects, emit. rewrite bind_assoc, bind_ok, bind_ret. cbn [snd].
    fold (file_actions_of db commit). rewrite Hfas.
    rewrite lines_scan_skips by done.
    destruct (resolve_each_ok _ _ _ _ Hpre) as [t ->]. rewrite bind_ok.
    cbn [snd ListTangledLines.scan_file_actions].
    apply bind_snd_raise. unfold ListTangledLines.changed_file.
    rewrite Hold, bind_ret, Hnew.
    change (ListTangledLines.File_get db None)
      with (ListTangledCommits.File_get db None).
    by rewrite File_get_None.
Qed.

Lemma same_up_to_dump_prefix {A : Type} (t : list event) (m' m : Py A) :
  without_dump t = t ->
  same_up_to_dump m' m ->
  same_up_to_dump (t ++ m'.1, m'.2) (t ++ m.1, m.2).
Proof.
  intros Ht [Hr Hm]. split; cbn [fst snd]; [done|].
  by rewrite without_dump_app, Ht, Hm.
Qed.

Lemma selectors_same (db : Database) (commit : Commit) :
  Forall (λ fa, old_file_id fa = None) (file_actions_of db commit) ->
  Forall (λ file, out_of_scope file = ListTangledLines.skipped file)
    (File_objects db) ->
  (ListTangledLines.is_tangled db commit).2
  = (ListTangledCommits.is_commit_tangled db commit
       ListTangledCommits.has_tangled_lines).2
  ∧ List.filter (λ e, negb (is_dump e)) (ListTangledLines.is_tangled db commit).1
    = (ListTangledCommits.is_commit_tangled db commit
         ListTangledCommits.has_tangled_lines).1.
Proof.
  intros Hold Hfilters. rewrite Forall_forall in Hfilters.
  change (same_up_to_dump (ListTangledLines.is_tangled db commit)
            (ListTangledCommits.is_commit_tangled db commit
               ListTangledCommits.has_tangled_lines)).
  unfold ListTangledLines.is_tangled, ListTangledCommits.is_commit_tangled.
  rewrite validated_bugfix_with_one_parent_same.
  destruct (ListTangledCommits.validated_bugfix_with_one_parent commit);
    [|by split].
  unfold objects, emit. rewrite !bind_assoc, !bind_ok, !bind_ret.
  fold (file_actions_of db commit).
  apply same_up_to_dump_prefix; [done|].
  induction Hold as [|fa fas Hfa _ IH]; [by split|].
  cbn [ListTangledLines.scan_file_actions
         ListTangledCommits.scan_file_actions].
  assert (ListTangledLines.changed_file db fa
          = ListTangledCommits.File_get db (file_id fa)) as ->.
  { unfold ListTangledLines.changed_file. by rewrite Hfa, bind_ret. }
  assert (ListTangledCommits.get_changed_file db fa
          = ListTangledCommits.File_get db (file_id fa)) as ->.
  { unfold ListTangledCommits.get_changed_file.
    destruct (file_id fa); [done|by rewrite Hfa]. }
  pose proof (File_get_found db (file_id fa)) as Hfound.
  destruct (file_id fa) as [id|]; [|by split].
  rewrite File_get_eq in Hfound |- *. cbn [snd] in Hfound.
  destruct (List.filter _ (File_objects db)) as [|file [|]];
    [by split| |by split].
  rewrite !bind_ok. fold (out_of_scope file).
  rewrite (Hfilters file (Hfound file eq_refl)).
  apply same_up_to_dump_prefix; [done|].
  destruct (ListTangledLines.skipped file); [done|].
  apply same_up_to_dump_bind; [by split|]. intros hunks.
  apply same_up_to_dump_bind; [apply has_tangled_lines_same|].
  intros b. by split.
Qed.

(** X10. On a commit none of whose file actions has an [old_file_id], in a
    dataset on whose files the two file filters agree, [is_tangled] of
    [list_tangled_lines.py] ends as [is_commit_tangled] with
    [has_tangled_lines] does: same answer or exception, same queries and
    printed lines in the same order, with the dump in between. *)
Theorem selectors_agree_without_old_files (db : Database) (commit : Commit) :
  Forall (λ fa, old_file_id fa = None) (file_actions_of db commit) ->
  Forall (λ file, out_of_scope file = ListTangledLines.skipped file)
    (File_objects db) ->
  (ListTangledLines.is_tangled db commit).2
  = (ListTangledCommits.is_commit_tangled db commit
       ListTangledCommits.has_tangled_lines).2
  ∧ List.filter (λ e, negb (is_dump e)) (ListTangledLines.is_tangled db commit).1
    = (ListTangledCommits.is_commit_tangled db commit
         ListTangledCommits.has_tangled_lines).1.
Proof. apply selectors_same. Qed.

(** ** The enumeration of [find_tangled_commits] *)

Lemma objects_eq {D : Type} (q : query) (matching : D -> bool)
    (collection : list D) :
  objects q matching collection = ([Read q], Ok (List.filter matching collection)).
Proof. done. Qed.

Lemma get_ok {D : Type} (found : list D) (d : D) :
  (get found).2 = Ok d -> found = [d].
Proof. destruct found as [|d' [|]]; [done| |done]. by intros [= ->]. Qed.

Lemma listing_cons (db : Database) (selector : Commit -> Py (option bool))
    (project : Project) (projects : list Project) :
  listing db selector (project :: projects)
  = ((λ c, (name project, revision_hash c))
       <$> List.filter (λ c, says_true (selector c)) (commits_of db project))
    ++ listing db selector projects.
Proof. done. Qed.

Lemma commits_of_one (db : Database) (project : Project)
    (vcs_system : VCSSystem) :
  List.filter (λ v, bool_decide (project_id v = Project_id project))
    (VCSSystem_objects db) = [vcs_system] ->
  commits_of db project
  = List.filter (λ c, bool_decide (vcs_system_id c = VCSSystem_id vcs_system))
      (Commit_objects db).
Proof. unfold commits_of. by intros ->. Qed.

Section Enumeration.

Variables (db : Database) (tangle_func : list Hunk -> string -> Py bool).

Abbreviation selector :=
  (λ c, ListTangledCommits.is_commit_tangled db c tangle_func).

Lemma scan_commits_ok (project : Project) (commits : list Commit)
    (tangled_commits out : list (string * string)) :
  (ListTangledCommits.scan_commits db tangle_func project commits
     tangled_commits).2 = Ok out ->
  out = tangled_commits
        ++ ((λ c, (name project, revision_hash c))
              <$> List.filter (λ c, says_true (selector c)) commits).
Proof.
  revert tangled_commits.
  induction commits as [|c commits IH]; intros acc.
  - cbn. intros [= <-]. by rewrite app_nil_r.
  - cbn [ListTangledCommits.scan_commits List.filter].
    intros (r & Hr & Hrest)%bind_snd_ok. apply IH in Hrest as ->.
    unfold says_true at 2. rewrite Hr.
    destruct r as [[]|]; cbn [ListTangledCommits.is_true default id]; [|done..].
    by rewrite fmap_cons, <- (assoc_L (++)).
Qed.

Lemma scan_commits_raise (project : Project) (pre post : list Commit)
    (c : Commit) (tangled_commits : list (string * string)) (e : exn) :
  Forall (λ c', ∃ r, (selector c').2 = Ok r) pre ->
  (selector c).2 = Raise e ->
  (ListTangledCommits.scan_commits db tangle_func project (pre ++ c :: post)
     tangled_commits).2 = Raise e.
Proof.
  intros Hpre Hc. revert tangled_commits.
  induction Hpre as [|c' pre [r Hr] _ IH]; intros acc;
    cbn [app ListTangledCommits.scan_commits].
  - by apply bind_snd_raise.
  - rewrite (bind_snd _ _ r Hr). apply IH.
Qed.

Lemma scan_projects_ok (projects : list Project)
    (tangled_commits out : list (string * string)) :
  (ListTangledCommits.scan_projects db tangle_func projects
     tangled_commits).2 = Ok out ->
  out = tangled_commits ++ listing db selector projects.
Proof.
  revert tangled_commits.
  induction projects as [|project projects IH]; intros acc.
  - cbn. intros [= <-]. by rewrite app_nil_r.
  - cbn [ListTangledCommits.scan_projects].
    rewrite !objects_eq, !bind_ok. cbn [fst snd].
    intros (vcs_system & Hvcs%get_ok & Hrest)%bind_snd_ok.
    rewrite objects_eq, bind_ok in Hrest. cbn [fst snd] in Hrest.
    apply bind_snd_ok in Hrest as (acc' & Hacc' & Hrest).
    apply scan_commits_ok in Hacc' as ->. apply IH in Hrest as ->.
    rewrite listing_cons, (commits_of_one _ _ _ Hvcs).
    by rewrite <- (assoc_L (++)).
Qed.

End Enumeration.

Lemma find_tangled_commits_listing
    (PROJECTS LINE_LABELS_CODE LINE_LABELS_CODE_FIX LINE_LABELS_CODE_NO_FIX
       : list string)
    (db : Database) (tangle_granularity : string)
    (out : list (string * string)) :
  (ListTangledCommits.find_tangled_commits PROJECTS LINE_LABELS_CODE
     LINE_LABELS_CODE_FIX LINE_LABELS_CODE_NO_FIX db tangle_granularity).2
  = Ok out ->
  (tangle_granularity = "hunk"
   ∧ out = listing db
             (λ c, ListTangledCommits.is_commit_tangled db c
                     (hunk_detector LINE_LABELS_CODE LINE_LABELS_CODE_FIX
                        LINE_LABELS_CODE_NO_FIX))
             (named_projects PROJECTS db))
  ∨ (tangle_granularity = "line"
     ∧ out = listing db
               (λ c, ListTangledCommits.is_commit_tangled db c
                       ListTangledCommits.has_tangled_lines)
               (named_projects PROJECTS db)).
Proof.
  unfold ListTangledCommits.find_tangled_commits.
  destruct (String.eqb_spec tangle_granularity "hunk") as [->|_].
  - rewrite bind_ret. unfold ListTangledCommits.connect_to_db, emit.
    rewrite bind_ok, objects_eq, bind_ok. cbn [fst snd].
    intros ->%scan_projects_ok. by left.
  - destruct (String.eqb_spec tangle_granularity "line") as [->|_]; [|done].
    rewrite bind_ret. unfold ListTangledCommits.connect_to_db, emit.
    rewrite bind_ok, objects_eq, bind_ok. cbn [fst snd].
    intros ->%scan_projects_ok. by right.
Qed.

(** X11. When [find_tangled_commits] returns, with granularity ["hunk"] or
    ["line"], its list is, project by project in the order of the projects
    named in [PROJECTS] and commit by commit in the order of the project's
    version control system, the name and hash of exactly the commits on
    which [is_commit_tangled] answered [True] with the detector of that
    granularity. *)
Theorem find_tangled_commits_lists_in_enumeration_order
    (PROJECTS LINE_LABELS_CODE LINE_LABELS_CODE_FIX LINE_LABELS_CODE_NO_FIX
       : list string)
    (db : Database) (tangle_granularity : string)
    (out : list (string * string)) :
  (ListTangledCommits.find_tangled_commits PROJECTS LINE_LABELS_CODE
     LINE_LABELS_CODE_FIX LINE_LABELS_CODE_NO_FIX db tangle_granularity).2
  = Ok out ->
  (tangle_granularity = "hunk"
   ∧ out = listing db
             (λ c, ListTangledCommits.is_commit_tangled db c
                     (hunk_detector LINE_LABELS_CODE LINE_LABELS_CODE_FIX
                        LINE_LABELS_CODE_NO_FIX))
             (named_projects PROJECTS db))
  ∨ (tangle_granularity = "line"
     ∧ out = listing db
               (λ c, ListTangledCommits.is_commit_tangled db c
                       ListTangledCommits.has_tangled_lines)
               (named_projects PROJECTS db)).
Proof. apply find_tangled_commits_listing. Qed.

(** X12. A commit on which the selector raises, after commits on which it
    returned, ends the loop over the commits with that exception: nothing is
    caught, and the commits after it are not looked at. *)
Theorem raising_commit_aborts_scan
    (db : Database) (tangle_func : list Hunk -> string -> Py bool)
    (project : Project) (pre post : list Commit) (c : Commit)
    (tangled_commits : list (string * string)) (e : exn) :
  Forall (λ c', ∃ r, (ListTangledCommits.is_commit_tangled db c'
                        tangle_func).2 = Ok r) pre ->
  (ListTangledCommits.is_commit_tangled db c tangle_func).2 = Raise e ->
  ∀ post',
    ListTangledCommits.scan_commits db tangle_func project (pre ++ c :: post)
      tangled_commits
    = ListTangledCommits.scan_commits db tangle_func project (pre ++ c :: post')
        tangled_commits
    ∧ (ListTangledCommits.scan_commits db tangle_func project
         (pre ++ c :: post) tangled_commits).2 = Raise e.
Proof.
  intros Hpre Hc post'. split; [|by apply scan_commits_raise].
  revert tangled_commits.
  induction Hpre as [|c' pre [r Hr] _ IH]; intros acc;
    cbn [app ListTangledCommits.scan_commits].
  - destruct (ListTangledCommits.is_commit_tangled db c tangle_func)
      as [t r]. cbn [snd] in Hc. by subst r.
  - apply bind_ext. intros r'. apply IH.
Qed.

(** X13. Every entry of the list [find_tangled_commits] returns names a
    project of the dataset whose name is in [PROJECTS] and gives the hash of
    a commit of that project's version control system that is a validated
    bug fix with exactly one parent. *)
Theorem listed_commits_are_validated_bug_fixes
    (PROJECTS LINE_LABELS_CODE LINE_LABELS_CODE_FIX LINE_LABELS_CODE_NO_FIX
       : list string)
    (db : Database) (tangle_granularity : string)
    (out : list (string * string)) :
  (ListTangledCommits.find_tangled_commits PROJECTS LINE_LABELS_CODE
     LINE_LABELS_CODE_FIX LINE_LABELS_CODE_NO_FIX db tangle_granularity).2
  = Ok out ->
  Forall (λ entry,
            ∃ project vcs_system commit d,
              project ∈ Project_objects db
              ∧ name project = entry.1
              ∧ entry.1 ∈ PROJECTS
              ∧ vcs_system ∈ VCSSystem_objects db
              ∧ project_id vcs_system = Project_id project
              ∧ commit ∈ Commit_objects db
              ∧ vcs_system_id commit = VCSSystem_id vcs_system
              ∧ revision_hash commit = entry.2
              ∧ labels commit = Some d
              ∧ d !! "validated_bugfix" = Some true
              ∧ length (parents commit) = 1%nat) out.
Proof.
  intros Hrun.
  assert (∃ f, out = listing db
                       (λ c, ListTangledCommits.is_commit_tangled db c f)
                       (named_projects PROJECTS db)) as [f ->].
  { apply find_tangled_commits_listing in Hrun as [[_ ->]|[_ ->]]; by eexists. }
  apply Forall_forall. intros [n h] Hentry.
  unfold listing in Hentry.
  apply list_elem_of_bind in Hentry as (project & Hentry & Hproject).
  apply list_elem_of_fmap in Hentry as (commit & [= -> ->] & Hcommit).
  apply list_elem_of_In, List.filter_In in Hproject as [Hproject Hname].
  apply bool_decide_eq_true in Hname.
  apply list_elem_of_In, List.filter_In in Hcommit as [Hcommit Htrue].
  unfold commits_of in Hcommit.
  destruct (List.filter _ (VCSSystem_objects db)) as [|vcs_system [|]] eqn:Hvcs;
    [done| |done].
  assert (List.In vcs_system [vcs_system]) as Hin by (by left).
  rewrite <- Hvcs in Hin. apply List.filter_In in Hin as [Hin Hpid].
  apply bool_decide_eq_true in Hpid.
  apply List.filter_In in Hcommit as [Hcommit Hvid].
  apply bool_decide_eq_true in Hvid.
  assert (ListTangledCommits.validated_bugfix_with_one_parent commit = true)
    as (d & Hd & Hv & Hp)%validated_bugfix_with_one_parent_true.
  { unfold says_true, ListTangledCommits.is_commit_tangled in Htrue.
    by destruct (ListTangledCommits.validated_bugfix_with_one_parent commit). }
  exists project, vcs_system, commit, d. cbn [fst snd].
  rewrite <- !list_elem_of_In in *. done.
Qed.

(** ** What the scripts print *)

Lemma bind_fst_ok {A B : Type} (m : Py A) (k : A -> Py B) (a : A) :
  m.2 = Ok a -> (bind m k).1 = m.1 ++ (k a).1.
Proof. destruct m as [t r]. cbn [snd]. intros ->. by rewrite bind_ok. Qed.

Lemma print_tangled_commits_eq (tangled_commits : list (string * string)) :
  ListTangledCommits.print_tangled_commits tangled_commits
  = (result_lines tangled_commits, Ok tt).
Proof.
  induction tangled_commits as [|[project commit_hash] l IH]; [done|].
  cbn [ListTangledCommits.print_tangled_commits]. unfold print, emit.
  by rewrite bind_ok, IH.
Qed.

Section Traces.

(** A property of events that every query has. *)
Variable P : event -> Prop.
Hypothesis P_Read : ∀ q, P (Read q).

Lemma trace_bind {A B : Type} (m : Py A) (k : A -> Py B) :
  Forall P m.1 -> (∀ a, Forall P (k a).1) -> Forall P (bind m k).1.
Proof.
  destruct m as [t [a|e]]; cbn [fst]; intros Hm Hk; [|done].
  rewrite bind_ok. cbn [fst]. apply Forall_app. auto.
Qed.

Lemma trace_objects {D : Type} (q : query) (matching : D -> bool)
    (collection : list D) :
  Forall P (objects q matching collection).1.
Proof. rewrite objects_eq. cbn. auto. Qed.

Lemma trace_get {D : Type} (found : list D) : Forall P (get found).1.
Proof. by destruct found as [|d [|]]. Qed.

Lemma trace_File_get (db : Database) (id : option ObjectId) :
  Forall P (ListTangledCommits.File_get db id).1.
Proof. destruct id; [|done]. rewrite File_get_eq. cbn. auto. Qed.

Variables (db : Database) (tangle_func : list Hunk -> string -> Py bool).
Hypothesis P_tangle_func :
  ∀ hunks commit_hash, Forall P (tangle_func hunks commit_hash).1.

Lemma trace_is_commit_tangled (commit : Commit) :
  Forall P (ListTangledCommits.is_commit_tangled db commit tangle_func).1.
Proof.
  unfold ListTangledCommits.is_commit_tangled.
  destruct (ListTangledCommits.validated_bugfix_with_one_parent commit);
    [|done].
  apply trace_bind; [apply trace_objects|]. intros file_actions.
  induction file_actions as [|fa fas IH]; [done|].
  cbn [ListTangledCommits.scan_file_actions].
  apply trace_bind.
  { unfold ListTangledCommits.get_changed_file.
    destruct (file_id fa); apply trace_File_get. }
  intros file. destruct (_ || _); [done|].
  apply trace_bind; [apply trace_objects|]. intros hunks.
  apply trace_bind; [apply P_tangle_func|done].
Qed.

Lemma trace_scan_commits (project : Project) (commits : list Commit)
    (tangled_commits : list (string * string)) :
  Forall P (ListTangledCommits.scan_commits db tangle_func project commits
              tangled_commits).1.
Proof.
  revert tangled_commits. induction commits as [|c commits IH]; [done|].
  intros acc. cbn [ListTangledCommits.scan_commits].
  apply trace_bind; [apply trace_is_commit_tangled|]. intros r. apply IH.
Qed.

Lemma trace_scan_projects (projects : list Project)
    (tangled_commits : list (string * string)) :
  Forall P (ListTangledCommits.scan_projects db tangle_func projects
              tangled_commits).1.
Proof.
  revert tangled_commits. induction projects as [|p projects IH]; [done|].
  intros acc. cbn [ListTangledCommits.scan_projects].
  apply trace_bind; [apply trace_objects|]. intros found.
  apply trace_bind; [apply trace_get|]. intros vcs_system.
  apply trace_bind; [apply trace_objects|]. intros commits.
  apply trace_bind; [apply trace_scan_commits|]. intros acc'. apply IH.
Qed.

End Traces.

Lemma trace_has_tangled_lines (P : event -> Prop) (hunks : list Hunk)
    (commit_hash : string) :
  (∀ line, P (Stdout (TangledLineIn commit_hash line))) ->
  (∀ a b, P (Stdout (FoundLabel a b))) ->
  Forall P (ListTangledCommits.has_tangled_lines hunks commit_hash).1.
Proof.
  intros Hline Hlabel.
  destruct (has_tangled_lines_shape hunks commit_hash)
    as [->|[->|(line & a & b & -> & _)]]; cbn [fst]; auto.
Qed.

Lemma trace_find_tangled_commits (P : event -> Prop)
    (PROJECTS LINE_LABELS_CODE LINE_LABELS_CODE_FIX LINE_LABELS_CODE_NO_FIX
       : list string)
    (db : Database) (tangle_granularity : string) :
  (∀ q, P (Read q)) ->
  P Connect ->
  (tangle_granularity = "line" ->
   (∀ h line, P (Stdout (TangledLineIn h line)))
   ∧ (∀ a b, P (Stdout (FoundLabel a b)))) ->
  Forall P (ListTangledCommits.find_tangled_commits PROJECTS LINE_LABELS_CODE
              LINE_LABELS_CODE_FIX LINE_LABELS_CODE_NO_FIX db
              tangle_granularity).1.
Proof.
  intros HRead HConnect Hline.
  unfold ListTangledCommits.find_tangled_commits.
  destruct (String.eqb_spec tangle_granularity "hunk") as [->|_];
    [|destruct (String.eqb_spec tangle_granularity "line") as [->|_];
      [|done]].
  - rewrite bind_ret. apply trace_bind; [cbn; auto|]. intros _.
    apply trace_bind; [by apply trace_objects|]. intros projects.
    by apply trace_scan_projects.
  - destruct (Hline eq_refl) as [Hl Hf].
    rewrite bind_ret. apply trace_bind; [cbn; auto|]. intros _.
    apply trace_bind; [by apply trace_objects|]. intros projects.
    apply trace_scan_projects; [done|]. intros hunks h.
    by apply trace_has_tangled_lines.
Qed.

(** X14. [main] prints the result lines last and all or none: when
    [find_tangled_commits] returns a list, [main] has printed, after
    everything [find_tangled_commits] printed, one line per entry in the
    order of the list; when it raises, [main] ends with the same exception
    and no result line is printed. Nothing [find_tangled_commits] prints is a
    result line. *)
Theorem main_prints_the_listing_last
    (PROJECTS LINE_LABELS_CODE LINE_LABELS_CODE_FIX LINE_LABELS_CODE_NO_FIX
       : list string)
    (db : Database) (tangle_granularity : string) :
  let found :=
    ListTangledCommits.find_tangled_commits PROJECTS LINE_LABELS_CODE
      LINE_LABELS_CODE_FIX LINE_LABELS_CODE_NO_FIX db tangle_granularity in
  Forall (λ e, is_result_line e = false) found.1
  ∧ ListTangledCommits.main PROJECTS LINE_LABELS_CODE LINE_LABELS_CODE_FIX
      LINE_LABELS_CODE_NO_FIX db tangle_granularity
    = match found.2 with
      | Ok tangled_commits =>
          (found.1 ++ result_lines tangled_commits, Ok tt)
      | Raise e => (found.1, Raise e)
      end.
Proof.
  intros found. split.
  - by apply trace_find_tangled_commits.
  - unfold ListTangledCommits.main. fold found.
    destruct found as [t [out|e]]; [|done].
    by rewrite bind_ok, print_tangled_commits_eq.
Qed.

(** X15. With granularity ["hunk"] the standard output of [main] holds the
    result lines and nothing else: one line per entry of the list when
    [find_tangled_commits] returns, and nothing when it raises. *)
Theorem hunk_granularity_prints_result_lines_only
    (PROJECTS LINE_LABELS_CODE LINE_LABELS_CODE_FIX LINE_LABELS_CODE_NO_FIX
       : list string)
    (db : Database) :
  List.filter is_stdout
    (ListTangledCommits.main PROJECTS LINE_LABELS_CODE LINE_LABELS_CODE_FIX
       LINE_LABELS_CODE_NO_FIX db "hunk").1
  = match (ListTangledCommits.find_tangled_commits PROJECTS LINE_LABELS_CODE
             LINE_LABELS_CODE_FIX LINE_LABELS_CODE_NO_FIX db "hunk").2 with
    | Ok tangled_commits => result_lines tangled_commits
    | Raise _ => []
    end.
Proof.
  pose proof (trace_find_tangled_commits (λ e, is_stdout e = false) PROJECTS
                LINE_LABELS_CODE LINE_LABELS_CODE_FIX LINE_LABELS_CODE_NO_FIX
                db "hunk") as Hquiet.
  unfold ListTangledCommits.main.
  destruct (ListTangledCommits.find_tangled_commits _ _ _ _ db "hunk")
    as [t r].
  cbn [fst snd] in *.
  assert (List.filter is_stdout t = []) as Ht.
  { specialize (Hquiet (λ _, eq_refl) eq_refl). clear -Hquiet.
    induction t as [|e t IH]; [done|].
    cbn. rewrite Forall_cons in Hquiet. destruct Hquiet as [-> ?]; [done|].
    by apply IH. }
  destruct r as [out|e]; [|done].
  rewrite bind_ok, print_tangled_commits_eq. cbn [fst snd].
  rewrite List.filter_app, Ht. cbn [app].
  clear. induction out as [|entry out IH]; [done|]. simpl. by f_equal.
Qed.

Lemma says_true_ok (m : Py (option bool)) (r : option bool) :
  m.2 = Ok r -> says_true m = ListTangledCommits.is_true r.
Proof. unfold says_true. intros ->. by destruct r as [[]|]. Qed.

Section LineReports.

Variable db : Database.

Abbreviation line_selector :=
  (λ c, ListTangledCommits.is_commit_tangled db c
          ListTangledCommits.has_tangled_lines).

Lemma scan_file_actions_stdout (commit : Commit)
    (file_actions : list FileAction) (r : option bool) :
  let m := ListTangledCommits.scan_file_actions db commit
             ListTangledCommits.has_tangled_lines file_actions in
  m.2 = Ok r ->
  if ListTangledCommits.is_true r
  then reports ("", revision_hash commit) (List.filter is_stdout m.1)
  else List.filter is_stdout m.1 = [].
Proof.
  induction file_actions as [|fa fas IH]; cbn zeta in *.
  - by intros [= <-].
  - cbn [ListTangledCommits.scan_file_actions].
    assert (∃ id, ListTangledCommits.get_changed_file db fa
                  = ListTangledCommits.File_get db id) as [id ->].
    { unfold ListTangledCommits.get_changed_file.
      destruct (file_id fa); by eexists. }
    destruct id as [id|]; [|done]. rewrite File_get_eq.
    destruct (List.filter _ (File_objects db)) as [|file [|]]; [done| |done].
    rewrite bind_ok. cbn [fst snd app List.filter is_stdout].
    destruct (_ || _); [apply IH|].
    rewrite objects_eq, bind_ok. cbn [fst snd app List.filter is_stdout].
    destruct (has_tangled_lines_shape
                (List.filter
                   (λ h, bool_decide (file_action_id h = FileAction_id fa))
                   (Hunk_objects db))
                (revision_hash commit))
      as [->|[->|(line & a & b & -> & _)]]; [|done|].
    + rewrite bind_ok. cbn. by intros [= <-].
    + rewrite bind_ok. cbn. intros [= <-]. cbn. by exists line, a, b.
Qed.

Lemma is_commit_tangled_stdout (commit : Commit) (r : option bool) :
  (line_selector commit).2 = Ok r ->
  if ListTangledCommits.is_true r
  then reports ("", revision_hash commit)
         (List.filter is_stdout (line_selector commit).1)
  else List.filter is_stdout (line_selector commit).1 = [].
Proof.
  unfold ListTangledCommits.is_commit_tangled.
  destruct (ListTangledCommits.validated_bugfix_with_one_parent commit).
  - rewrite objects_eq, bind_ok. cbn [fst snd app List.filter is_stdout].
    apply scan_file_actions_stdout.
  - cbn. by intros [= <-].
Qed.

Lemma scan_commits_stdout (project : Project) (commits : list Commit)
    (tangled_commits out : list (string * string)) :
  let m := ListTangledCommits.scan_commits db
             ListTangledCommits.has_tangled_lines project commits
             tangled_commits in
  m.2 = Ok out ->
  ∃ chunks,
    Forall2 reports
      ((λ c, (name project, revision_hash c))
         <$> List.filter (λ c, says_true (line_selector c)) commits)
      chunks
    ∧ List.filter is_stdout m.1 = concat chunks.
Proof.
  revert tangled_commits.
  induction commits as [|c commits IH]; intros acc; cbn zeta in *.
  - intros _. exists []. split; [constructor|done].
  - cbn [ListTangledCommits.scan_commits List.filter].
    intros Hrun. pose proof Hrun as (r & Hr & Hrest)%bind_snd_ok.
    rewrite (bind_fst_ok _ _ r Hr), List.filter_app.
    destruct (IH _ Hrest) as (chunks & Hchunks & ->).
    rewrite (says_true_ok _ _ Hr).
    pose proof (is_commit_tangled_stdout c r Hr) as Hc.
    destruct (ListTangledCommits.is_true r).
    + exists (List.filter is_stdout (line_selector c).1 :: chunks).
      split; [|done]. rewrite fmap_cons. by constructor.
    + exists chunks. by rewrite Hc.
Qed.

Lemma scan_projects_stdout (projects : list Project)
    (tangled_commits out : list (string * string)) :
  let m := ListTangledCommits.scan_projects db
             ListTangledCommits.has_tangled_lines projects tangled_commits in
  m.2 = Ok out ->
  ∃ chunks,
    Forall2 reports (listing db line_selector projects) chunks
    ∧ List.filter is_stdout m.1 = concat chunks.
Proof.
  revert tangled_commits.
  induction projects as [|project projects IH]; intros acc; cbn zeta in *.
  - intros _. exists []. split; [constructor|done].
  - cbn [ListTangledCommits.scan_projects].
    rewrite !objects_eq, !bind_ok. cbn [fst snd app List.filter is_stdout].
    intros Hrun. pose proof Hrun as (vcs_system & Hget & Hrest)%bind_snd_ok.
    rewrite (bind_fst_ok _ _ vcs_system Hget).
    apply get_ok in Hget as Hvcs. rewrite Hvcs. cbn [get ret fst app].
    rewrite objects_eq, bind_ok in Hrest |- *.
    cbn [fst snd app List.filter is_stdout] in Hrest |- *.
    pose proof Hrest as (acc' & Hacc' & Hrest')%bind_snd_ok.
    rewrite (bind_fst_ok _ _ acc' Hacc'), List.filter_app.
    destruct (scan_commits_stdout _ _ _ _ Hacc') as (chunks & Hchunks & ->).
    destruct (IH _ Hrest') as (chunks' & Hchunks' & ->).
    exists (chunks ++ chunks'). rewrite concat_app. split; [|done].
    rewrite listing_cons, (commits_of_one _ _ _ Hvcs).
    by apply Forall2_app.
Qed.

End LineReports.

(** X16. With granularity ["line"], when [find_tangled_commits] returns its
    list it has printed on standard output exactly two lines for each entry
    of the list, in the order of the list: the tangled line under the hash
    of the entry, and the two labels found. Together with the result lines
    of [main] that is three lines of standard output per tangled commit. *)
Theorem line_granularity_prints_two_lines_per_listed_commit
    (PROJECTS LINE_LABELS_CODE LINE_LABELS_CODE_FIX LINE_LABELS_CODE_NO_FIX
       : list string)
    (db : Database) (out : list (string * string)) :
  let found :=
    ListTangledCommits.find_tangled_commits PROJECTS LINE_LABELS_CODE
      LINE_LABELS_CODE_FIX LINE_LABELS_CODE_NO_FIX db "line" in
  found.2 = Ok out ->
  ∃ chunks,
    Forall2 reports out chunks
    ∧ List.filter is_stdout found.1 = concat chunks.
Proof.
  cbn zeta. intros Hrun.
  pose proof Hrun as [[[=] _]|[_ ->]]%find_tangled_commits_listing.
  unfold ListTangledCommits.find_tangled_commits in *.
  cbn [String.eqb Ascii.eqb Bool.eqb] in *. rewrite bind_ret in *.
  unfold ListTangledCommits.connect_to_db, emit in *.
  rewrite bind_ok, objects_eq, bind_ok in *.
  cbn [fst snd app List.filter is_stdout] in *.
  by apply (scan_projects_stdout db _ [] _ Hrun).
Qed.

(** ** [find_tangled_commits] of [list_tangled_lines.py] *)

Lemma bind_snd_congr {A B : Type} (m' m : Py A) (k' k : A -> Py B) :
  m'.2 = m.2 -> (∀ a, (k' a).2 = (k a).2) -> (bind m' k').2 = (bind m k).2.
Proof.
  destruct m' as [t' r'], m as [t r]. cbn [snd]. intros -> Hk.
  destruct r as [a|e]; [|done]. rewrite !bind_ok. apply Hk.
Qed.

Section LinesEnumeration.

Variable db : Database.

Lemma lines_scan_commits_ok (project : Project) (commits : list Commit)
    (tangled_commits out : list (string * string)) :
  (ListTangledLines.scan_commits db project commits tangled_commits).2
  = Ok out ->
  out = tangled_commits
        ++ ((λ c, (name project, revision_hash c))
              <$> List.filter (λ c, says_true (ListTangledLines.is_tangled db c))
                    commits).
Proof.
  revert tangled_commits.
  induction commits as [|c commits IH]; intros acc.
  - cbn. intros [= <-]. by rewrite app_nil_r.
  - cbn [ListTangledLines.scan_commits List.filter].
    intros (r & Hr & Hrest)%bind_snd_ok. apply IH in Hrest as ->.
    unfold says_true at 2. rewrite Hr.
    destruct r as [[]|]; cbn [ListTangledLines.is_true default id]; [|done..].
    by rewrite fmap_cons, <- (assoc_L (++)).
Qed.

Lemma lines_scan_projects_ok (projects : list Project)
    (tangled_commits out : list (string * string)) :
  (ListTangledLines.scan_projects db projects tangled_commits).2 = Ok out ->
  out = tangled_commits
        ++ listing db (ListTangledLines.is_tangled db) projects.
Proof.
  revert tangled_commits.
  induction projects as [|project projects IH]; intros acc.
  - cbn. intros [= <-]. by rewrite app_nil_r.
  - cbn [ListTangledLines.scan_projects]. unfold emit.
    rewrite bind_ok, !objects_eq, !bind_ok. cbn [fst snd].
    intros (vcs_system & Hvcs%get_ok & Hrest)%bind_snd_ok.
    rewrite objects_eq, bind_ok in Hrest. cbn [fst snd] in Hrest.
    apply bind_snd_ok in Hrest as (acc' & Hacc' & Hrest).
    apply lines_scan_commits_ok in Hacc' as ->. apply IH in Hrest as ->.
    rewrite listing_cons, (commits_of_one _ _ _ Hvcs).
    by rewrite <- (assoc_L (++)).
Qed.

Hypothesis selectors_agree :
  ∀ c, (ListTangledLines.is_tangled db c).2
       = (ListTangledCommits.is_commit_tangled db c
            ListTangledCommits.has_tangled_lines).2.

Lemma scan_commits_agree (project : Project) (commits : list Commit)
    (tangled_commits : list (string * string)) :
  (ListTangledLines.scan_commits db project commits tangled_commits).2
  = (ListTangledCommits.scan_commits db ListTangledCommits.has_tangled_lines
       project commits tangled_commits).2.
Proof.
  revert tangled_commits. induction commits as [|c commits IH]; [done|].
  intros acc.
  cbn [ListTangledLines.scan_commits ListTangledCommits.scan_commits].
  apply bind_snd_congr; [apply selectors_agree|]. intros r. apply IH.
Qed.

Lemma scan_projects_agree (projects : list Project)
    (tangled_commits : list (string * string)) :
  (ListTangledLines.scan_projects db projects tangled_commits).2
  = (ListTangledCommits.scan_projects db ListTangledCommits.has_tangled_lines
       projects tangled_commits).2.
Proof.
  revert tangled_commits. induction projects as [|p projects IH]; [done|].
  intros acc.
  cbn [ListTangledLines.scan_projects ListTangledCommits.scan_projects].
  unfold emit. rewrite bind_ok. cbn [snd].
  apply bind_snd_congr; [done|]. intros found.
  apply bind_snd_congr; [done|]. intros vcs_system.
  apply bind_snd_congr; [done|]. intros commits.
  apply bind_snd_congr; [apply scan_commits_agree|]. intros acc'. apply IH.
Qed.

End LinesEnumeration.

(** X17. When [find_tangled_commits] of [list_tangled_lines.py] returns, its
    list is, project by project and commit by commit in enumeration order,
    the name and hash of exactly the commits on which [is_tangled] answered
    [True]. *)
Theorem lines_find_tangled_commits_lists_in_enumeration_order
    (PROJECTS : list string) (db : Database) (out : list (string * string)) :
  (ListTangledLines.find_tangled_commits PROJECTS db).2 = Ok out ->
  out = listing db (ListTangledLines.is_tangled db)
          (named_projects PROJECTS db).
Proof.
  unfold ListTangledLines.find_tangled_commits.
  rewrite objects_eq, bind_ok. cbn [fst snd].
  by intros ->%lines_scan_projects_ok.
Qed.

(** X18. In a dataset where no file action has an [old_file_id] and on whose
    files the two file filters agree, [find_tangled_commits] of
    [list_tangled_lines.py] ends as [find_tangled_commits] of
    [list_tangled_commits.py] with granularity ["line"] does: with the same
    list or the same exception. *)
Theorem find_tangled_commits_agree
    (PROJECTS LINE_LABELS_CODE LINE_LABELS_CODE_FIX LINE_LABELS_CODE_NO_FIX
       : list string)
    (db : Database) :
  Forall (λ fa, old_file_id fa = None) (FileAction_objects db) ->
  Forall (λ file, out_of_scope file = ListTangledLines.skipped file)
    (File_objects db) ->
  (ListTangledLines.find_tangled_commits PROJECTS db).2
  = (ListTangledCommits.find_tangled_commits PROJECTS LINE_LABELS_CODE
       LINE_LABELS_CODE_FIX LINE_LABELS_CODE_NO_FIX db "line").2.
Proof.
  intros Hold Hfilters.
  unfold ListTangledLines.find_tangled_commits,
    ListTangledCommits.find_tangled_commits.
  cbn [String.eqb Ascii.eqb Bool.eqb]. rewrite bind_ret.
  unfold ListTangledCommits.connect_to_db, emit.
  rewrite (bind_ok [Connect]). cbn [snd].
  apply bind_snd_congr; [done|]. intros projects.
  apply scan_projects_agree. intros c.
  apply selectors_same; [|done].
  rewrite Forall_forall in Hold. apply Forall_forall. intros fa Hfa.
  apply Hold. unfold file_actions_of in Hfa.
  by apply list_elem_of_In, List.filter_In in Hfa as [?%list_elem_of_In _].
Qed.

(** ** Paths and the file filters *)

Lemma append_cons (a : ascii) (s t : string) :
  String.append (String a s) t = String a (String.append s t).
Proof. done. Qed.

Lemma startswith_app (sub post : string) :
  startswith (String.append sub post) sub = true.
Proof.
  induction sub as [|a sub IH]; [by destruct post|].
  rewrite append_cons. cbn [startswith]. by rewrite Ascii.eqb_refl.
Qed.

Lemma contains_app (sub pre post : string) :
  contains sub (String.append pre (String.append sub post)) = true.
Proof.
  induction pre as [|a pre IH].
  - change (String.append "" (String.append sub post))
      with (String.append sub post).
    pose proof (startswith_app sub post) as Hstart.
    destruct (String.append sub post); cbn [contains]; by rewrite Hstart.
  - rewrite append_cons. cbn [contains]. rewrite IH. apply orb_true_r.
Qed.

(** X19. The test-directory checks are substring checks: a path in which
    ["test/"] occurs anywhere is out of scope for [list_tangled_commits.py],
    and a path in which ["src/test"] occurs anywhere is skipped by
    [list_tangled_lines.py], also when the directory is only named alike
    (["latest/"], ["src/testing/"]). *)
Theorem test_directory_checks_are_substring_checks
    (file : File) (pre post : string) :
  (path file = pre +:+ "test/" +:+ post -> out_of_scope file = true)
  ∧ (path file = pre +:+ "src/test" +:+ post ->
     ListTangledLines.skipped file = true).
Proof.
  split; intros Hpath.
  - unfold out_of_scope, ListTangledCommits.is_test_file.
    rewrite Hpath, contains_app. cbn [orb]. apply orb_true_r.
  - unfold ListTangledLines.skipped. rewrite Hpath, contains_app.
    apply orb_true_r.
Qed.

(** ** The further properties on the example data *)

Section MoreOnExamples.

Import Examples.

Local Ltac by_decision := apply (bool_decide_unpack _); vm_compute; exact I.

(** The same label sets, with other offsets, label order and hunk order. *)
Lemma label_sets_decide_the_hunk_detector :
  ListTangledCommits.has_tangled_hunks CODE CODE_FIX CODE_NO_FIX
    [hunk_fix_and_nofix; hunk_fix_only] "c100"
  = ListTangledCommits.has_tangled_hunks CODE CODE_FIX CODE_NO_FIX
      [hunk_of 12%N [("documentation", []); ("bugfix", [2])];
       hunk_of 13%N [("refactoring", [0; 1]); ("bugfix", [1])]] "c101".
Proof.
  apply has_tangled_hunks_depends_on_label_sets_only.
  - constructor; [|constructor; [|constructor]].
    + apply Exists_cons_tl, Exists_cons_hd. cbn. set_solver.
    + apply Exists_cons_hd. cbn. set_solver.
  - constructor; [|constructor; [|constructor]].
    + apply Exists_cons_tl, Exists_cons_hd. cbn. set_solver.
    + apply Exists_cons_hd. cbn. set_solver.
Defined.

Lemma tangled_commit_100_has_tangled_source_file :
  ListTangledCommits.validated_bugfix_with_one_parent commit_100 = true
  ∧ ∃ pre fa post file,
      file_actions_of db commit_100 = pre ++ fa :: post
      ∧ Forall (resolves (ListTangledCommits.get_changed_file db) out_of_scope
                  true) pre
      ∧ (ListTangledCommits.get_changed_file db fa).2 = Ok file
      ∧ ListTangledCommits.is_java_file file = true
      ∧ ListTangledCommits.is_test_file file = false
      ∧ (ListTangledCommits.has_tangled_lines
           (List.filter
              (λ h, bool_decide (file_action_id h = FileAction_id fa))
              (Hunk_objects db))
           (revision_hash commit_100)).2 = Ok true.
Proof.
  apply tangled_commit_has_tangled_in_scope_file. by vm_compute.
Defined.

Lemma tangled_commit_100_has_tangled_line :
  ListTangledLines.validated_bugfix_with_one_parent commit_100 = true
  ∧ ∃ pre fa post file,
      file_actions_of db commit_100 = pre ++ fa :: post
      ∧ Forall (resolves (ListTangledLines.changed_file db)
                  ListTangledLines.skipped true) pre
      ∧ (ListTangledLines.changed_file db fa).2 = Ok file
      ∧ ListTangledLines.skipped file = false
      ∧ (ListTangledLines.has_tangled_lines
           (List.filter
              (λ h, bool_decide (file_action_id h = FileAction_id fa))
              (Hunk_objects db))
           (revision_hash commit_100)).2 = Ok true.
Proof.
  apply tangled_commit_has_tangled_line_in_scope_file. by vm_compute.
Defined.

(** Commit 200: the file action without a file comes before the source
    file. *)
Lemma dangling_file_action_aborts_commit_200 :
  (ListTangledCommits.is_commit_tangled db2 commit_200
     ListTangledCommits.has_tangled_lines).2 = Raise ValidationError
  ∧ (ListTangledLines.is_tangled db2 commit_200).2 = Raise ValidationError.
Proof.
  destruct (file_action_without_file_aborts_selector db2 commit_200
              ListTangledCommits.has_tangled_lines
              [fa_200_test] [fa_200_source] fa_200_dangling)
    as [Hcommits Hlines]; [by vm_compute..|].
  split.
  - apply Hcommits. constructor; [|constructor].
    exists test_file. by vm_compute.
  - apply Hlines. constructor; [|constructor].
    exists test_file. by vm_compute.
Defined.

Lemma selectors_agree_on_commit_100 :
  (ListTangledLines.is_tangled db commit_100).2
  = (ListTangledCommits.is_commit_tangled db commit_100
       ListTangledCommits.has_tangled_lines).2
  ∧ List.filter (λ e, negb (is_dump e))
      (ListTangledLines.is_tangled db commit_100).1
    = (ListTangledCommits.is_commit_tangled db commit_100
         ListTangledCommits.has_tangled_lines).1.
Proof.
  apply selectors_agree_without_old_files; by_decision.
Defined.

(** The second dataset lists commit 201 of project ant-ivy. *)
Lemma second_dataset_lists_commit_201 :
  ("line" = "hunk"
   ∧ [("ant-ivy", "c201")]
     = listing db2
         (λ c, ListTangledCommits.is_commit_tangled db2 c
                 (hunk_detector CODE CODE_FIX CODE_NO_FIX))
         (named_projects ["ant-ivy"] db2))
  ∨ ("line" = "line"
     ∧ [("ant-ivy", "c201")]
       = listing db2
           (λ c, ListTangledCommits.is_commit_tangled db2 c
                   ListTangledCommits.has_tangled_lines)
           (named_projects ["ant-ivy"] db2)).
Proof.
  apply (find_tangled_commits_lists_in_enumeration_order ["ant-ivy"] CODE
           CODE_FIX CODE_NO_FIX db2 "line").
  by vm_compute.
Defined.

(** Commit 202 lists an offset beyond its content twice: the loop over the
    commits ends with [IndexError] whatever comes after it. *)
Lemma commit_202_aborts_the_scan :
  (ListTangledCommits.scan_commits db2 ListTangledCommits.has_tangled_lines
     project_1 ([commit_101] ++ commit_202 :: [commit_201]) []).2
  = Raise IndexError.
Proof.
  refine (proj2 (raising_commit_aborts_scan db2
                   ListTangledCommits.has_tangled_lines project_1
                   [commit_101] [commit_201] commit_202 [] IndexError _ _ [])).
  - constructor; [|constructor]. exists None. by vm_compute.
  - by vm_compute.
Defined.

Lemma listed_commit_201_is_a_validated_bug_fix :
  Forall (λ entry,
            ∃ project vcs_system commit d,
              project ∈ Project_objects db2
              ∧ name project = entry.1
              ∧ entry.1 ∈ ["ant-ivy"]
              ∧ vcs_system ∈ VCSSystem_objects db2
              ∧ project_id vcs_system = Project_id project
              ∧ commit ∈ Commit_objects db2
              ∧ vcs_system_id commit = VCSSystem_id vcs_system
              ∧ revision_hash commit = entry.2
              ∧ labels commit = Some d
              ∧ d !! "validated_bugfix" = Some true
              ∧ length (parents commit) = 1%nat) [("ant-ivy", "c201")].
Proof.
  apply (listed_commits_are_validated_bug_fixes ["ant-ivy"] CODE CODE_FIX
           CODE_NO_FIX db2 "hunk").
  by vm_compute.
Defined.

Lemma commit_201_is_reported_on_two_lines :
  ∃ chunks,
    Forall2 reports [("ant-ivy", "c201")] chunks
    ∧ List.filter is_stdout
        (ListTangledCommits.find_tangled_commits ["ant-ivy"] CODE CODE_FIX
           CODE_NO_FIX db2 "line").1
      = concat chunks.
Proof.
  apply (line_granularity_prints_two_lines_per_listed_commit ["ant-ivy"] CODE
           CODE_FIX CODE_NO_FIX db2).
  by vm_compute.
Defined.

Lemma lines_script_lists_commit_201 :
  [("ant-ivy", "c201")]
  = listing db2 (ListTangledLines.is_tangled db2)
      (named_projects ["ant-ivy"] db2).
Proof.
  apply lines_find_tangled_commits_lists_in_enumeration_order.
  by vm_compute.
Defined.

Lemma both_scripts_agree_on_the_second_dataset :
  (ListTangledLines.find_tangled_commits ["ant-ivy"] db2).2
  = (ListTangledCommits.find_tangled_commits ["ant-ivy"] CODE CODE_FIX
       CODE_NO_FIX db2 "line").2.
Proof.
  apply find_tangled_commits_agree; by_decision.
Defined.

(** A directory named [latest] counts as a test directory, and so does
    [src/testing] for the other script. *)
Lemma directory_named_latest_is_out_of_scope :
  out_of_scope {| File_id := 8%N; path := "src/latest/Foo.java" |} = true
  ∧ ListTangledLines.skipped
      {| File_id := 9%N; path := "src/testing/Foo.java" |} = true.
Proof.
  split.
  - apply (proj1 (test_directory_checks_are_substring_checks
                    {| File_id := 8%N; path := "src/latest/Foo.java" |}
                    "src/la" "Foo.java")). done.
  - apply (proj2 (test_directory_checks_are_substring_checks
                    {| File_id := 9%N; path := "src/testing/Foo.java" |}
                    "" "ing/Foo.java")). done.
Defined.

End MoreOnExamples.

(** ** The line detector with a memory limit *)

Section WithinCapacity.

Import DefaultList.

Variable capacity : Z.

Lemma fill_within_below (l : defaultlist) (index : Z) :
  index < capacity -> fill_within capacity l index = Ok (fill l index).
Proof.
  intros Hindex. unfold fill_within, fill; cbv zeta.
  destruct (0 <? _); [|done].
  by destruct (Z.ltb_spec index capacity); [|lia].
Qed.

Lemma getitem_within_below (l : defaultlist) (index : Z) :
  index < capacity ->
  getitem_within capacity l index
  = match getitem l index with
    | (Ok v, l') => Ok (v, l')
    | (Raise e, _) => Raise e
    end.
Proof.
  intros Hindex. unfold getitem_within, getitem.
  by rewrite fill_within_below.
Qed.

Lemma setitem_within_below (l : defaultlist) (index : Z) (value : string) :
  index < capacity ->
  setitem_within capacity l index value = setitem l index value.
Proof.
  intros Hindex. unfold setitem_within, setitem.
  by rewrite fill_within_below.
Qed.

Lemma fill_within_cases (l : defaultlist) (index : Z) :
  (∃ l', fill_within capacity l index = Ok l')
  ∨ fill_within capacity l index = Raise MemoryError.
Proof.
  unfold fill_within; cbv zeta.
  destruct (0 <? _); [|left; by eexists].
  destruct (index <? capacity); [left; by eexists|by right].
Qed.

Lemma getitem_within_cases (l : defaultlist) (index : Z) :
  (∃ v l', getitem_within capacity l index = Ok (v, l'))
  ∨ getitem_within capacity l index = Raise IndexError
  ∨ getitem_within capacity l index = Raise MemoryError.
Proof.
  unfold getitem_within.
  destruct (fill_within_cases l index) as [[l' ->]| ->]; [|by right; right].
  destruct (list_getitem_cases l' index) as [[v ->]| ->];
    [left; by eexists _, _|right; by left].
Qed.

Lemma setitem_within_cases (l : defaultlist) (index : Z) (value : string) :
  (∃ l', setitem_within capacity l index value = Ok l')
  ∨ setitem_within capacity l index value = Raise IndexError
  ∨ setitem_within capacity l index value = Raise MemoryError.
Proof.
  unfold setitem_within.
  destruct (fill_within_cases l index) as [[l' ->]| ->]; [|by right; right].
  destruct (list_setitem_cases l' index (Some value)) as [[l2 ->]| ->];
    [left; by eexists|right; by left].
Qed.

Variables (commit_hash : string) (hunk_content_by_line : list string).

(** Below [capacity] the limit is not felt. *)
Lemma commits_scan_offsets_within_below (label : string) (offs : list Z)
    (line_labels : defaultlist) :
  Forall (λ i, i < capacity) offs ->
  ListTangledCommits.scan_offsets_within capacity commit_hash
    hunk_content_by_line label offs line_labels
  = ListTangledCommits.scan_offsets commit_hash hunk_content_by_line label
      offs line_labels.
Proof.
  intros Hoffs. revert line_labels.
  induction Hoffs as [|i offs Hi _ IH]; intros line_labels; [done|].
  cbn [ListTangledCommits.scan_offsets_within ListTangledCommits.scan_offsets].
  rewrite getitem_within_below by done.
  destruct (getitem line_labels i) as [[o|e] l1]; [|done].
  rewrite !bind_lift_ok. destruct (truthy o); [done|].
  rewrite setitem_within_below by done.
  destruct (setitem l1 i label) as [l2|e]; [|done].
  rewrite !bind_lift_ok. apply IH.
Qed.

Lemma lines_scan_offsets_within_below (label : string) (offs : list Z)
    (line_labels : defaultlist) :
  Forall (λ i, i < capacity) offs ->
  ListTangledLines.scan_offsets_within capacity commit_hash
    hunk_content_by_line label offs line_labels
  = ListTangledLines.scan_offsets commit_hash hunk_content_by_line label
      offs line_labels.
Proof.
  intros Hoffs. revert line_labels.
  induction Hoffs as [|i offs Hi _ IH]; intros line_labels; [done|].
  cbn [ListTangledLines.scan_offsets_within ListTangledLines.scan_offsets].
  rewrite getitem_within_below by done.
  destruct (getitem line_labels i) as [[o|e] l1]; [|done].
  rewrite !bind_lift_ok. apply bind_ext. intros _.
  rewrite getitem_within_below by done.
  destruct (getitem l1 i) as [[o'|e] l2]; [|done].
  rewrite !bind_lift_ok. destruct (truthy o'); [done|].
  rewrite setitem_within_below by done.
  destruct (setitem l2 i label) as [l3|e]; [|done].
  rewrite !bind_lift_ok. apply IH.
Qed.

Lemma offsets_cons (label : string) (offs : list Z)
    (items : list (string * list Z)) :
  (pairs ((label, offs) :: items)).*2 = offs ++ (pairs items).*2.
Proof.
  unfold pairs. cbn [mbind list_bind fst snd]. rewrite fmap_app. f_equal.
  induction offs as [|i offs IH]; [done|]. cbn. by f_equal.
Qed.

Lemma commits_scan_labels_within_below (items : list (string * list Z))
    (line_labels : defaultlist) :
  Forall (λ i, i < capacity) (pairs items).*2 ->
  ListTangledCommits.scan_labels_within capacity commit_hash
    hunk_content_by_line items line_labels
  = ListTangledCommits.scan_labels commit_hash hunk_content_by_line items
      line_labels.
Proof.
  revert line_labels.
  induction items as [|[label offs] items IH]; intros line_labels Hitems;
    [done|].
  rewrite offsets_cons in Hitems. apply Forall_app in Hitems as [Hoffs Hitems].
  cbn [ListTangledCommits.scan_labels_within ListTangledCommits.scan_labels].
  rewrite commits_scan_offsets_within_below by done.
  apply bind_ext. intros [l|b]; [by apply IH|done].
Qed.

Lemma lines_scan_labels_within_below (items : list (string * list Z))
    (line_labels : defaultlist) :
  Forall (λ i, i < capacity) (pairs items).*2 ->
  ListTangledLines.scan_labels_within capacity commit_hash
    hunk_content_by_line items line_labels
  = ListTangledLines.scan_labels commit_hash hunk_content_by_line items
      line_labels.
Proof.
  revert line_labels.
  induction items as [|[label offs] items IH]; intros line_labels Hitems;
    [done|].
  rewrite offsets_cons in Hitems. apply Forall_app in Hitems as [Hoffs Hitems].
  cbn [ListTangledLines.scan_labels_within ListTangledLines.scan_labels].
  rewrite lines_scan_offsets_within_below by done.
  apply bind_ext. intros [l|b]; [by apply IH|done].
Qed.

End WithinCapacity.

Lemma commits_has_tangled_lines_within_below (capacity : Z)
    (hunks : list Hunk) (commit_hash : string) :
  Forall (λ hunk, Forall (λ i, i < capacity) (offsets hunk)) hunks ->
  ListTangledCommits.has_tangled_lines_within capacity hunks commit_hash
  = ListTangledCommits.has_tangled_lines hunks commit_hash.
Proof.
  induction 1 as [|hunk hunks Hhunk _ IH]; [done|].
  cbn [ListTangledCommits.has_tangled_lines_within
         ListTangledCommits.has_tangled_lines].
  rewrite commits_scan_labels_within_below by done.
  apply bind_ext. by intros [l|b].
Qed.

Lemma lines_has_tangled_lines_within_below (capacity : Z)
    (hunks : list Hunk) (commit_hash : string) :
  Forall (λ hunk, Forall (λ i, i < capacity) (offsets hunk)) hunks ->
  ListTangledLines.has_tangled_lines_within capacity hunks commit_hash
  = ListTangledLines.has_tangled_lines hunks commit_hash.
Proof.
  induction 1 as [|hunk hunks Hhunk _ IH]; [done|].
  cbn [ListTangledLines.has_tangled_lines_within
         ListTangledLines.has_tangled_lines].
  rewrite lines_scan_labels_within_below by done.
  apply bind_ext. intros [l|b]; [by rewrite IH|done].
Qed.

(** ** Offsets beyond the content that are listed once *)

Lemma answer_bind (m m' : Py (flow (list (option string)) bool))
    (next : Py bool) :
  answer m = answer m' ->
  bind m (λ r, match r with
               | Continue _ => next
               | Return b => ret b
               end)
  = bind m' (λ r, match r with
                  | Continue _ => next
                  | Return b => ret b
                  end).
Proof.
  destruct m as [t r], m' as [t' r']. unfold answer. cbn [fst snd].
  intros [= -> Hr].
  destruct r as [[l|b]|e], r' as [[l'|b']|e']; try done;
    rewrite ?bind_ok; by simplify_eq.
Qed.

Section Trim.

Import DefaultList.

Variables (commit_hash : string) (hunk_content_by_line : list string).

Abbreviation n := (Z.of_nat (length hunk_content_by_line)).

(** Leaving out the offsets beyond the content changes nothing, when none
    of them is negative or visited twice. *)
Lemma scan_pairs_trim (ps visited : list (string * Z))
    (line_labels line_labels' : defaultlist) :
  (∀ k l, owner line_labels k = Some l -> (l, Z.of_nat k) ∈ visited) ->
  (∀ k, Z.of_nat k < n -> owner line_labels k = owner line_labels' k) ->
  (∀ p, p ∈ ps -> 0 <= p.2) ->
  NoDup (filter (λ i, n <= i) (visited ++ ps).*2) ->
  answer (scan_pairs commit_hash hunk_content_by_line ps line_labels)
  = answer (scan_pairs commit_hash hunk_content_by_line
              (filter (λ p, p.2 < n) ps) line_labels')
  ∧ ∃ r, (answer (scan_pairs commit_hash hunk_content_by_line ps
                    line_labels)).2 = Ok r.
Proof.
  revert visited line_labels line_labels'.
  induction ps as [|[label i] ps IH];
    intros visited line_labels line_labels' Hinv Hsame Hpos Hnd.
  - split; [done|by eexists].
  - assert (0 <= i) as Hi by (apply (Hpos (label, i)); left).
    assert (∀ p, p ∈ ps -> 0 <= p.2) as Hpos'.
    { intros p Hp. apply Hpos. by right. }
    assert (∀ k l,
              owner (<[Z.to_nat i := Some label]> (fill line_labels i)) k
              = Some l -> (l, Z.of_nat k) ∈ visited ++ [(label, i)]) as Hinv'.
    { intros k l. rewrite owner_set by done. rewrite elem_of_app.
      case_decide as Hk.
      - intros [= <-]. right. subst k. rewrite Z2Nat.id by done. left.
      - intros Ho. left. by apply Hinv. }
    assert (NoDup (filter (λ i, n <= i) ((visited ++ [(label, i)]) ++ ps).*2))
      as Hnd' by (by rewrite <- (assoc_L (++))).
    destruct (decide (i < n)) as [Hin|Hout].
    + rewrite filter_cons_True by done.
      assert (owner line_labels (Z.to_nat i) = owner line_labels' (Z.to_nat i))
        as Howner by (apply Hsame; lia).
      destruct (truthy (owner line_labels (Z.to_nat i))) eqn:Htruthy.
      * rewrite !scan_pairs_owned by (done || by rewrite <- Howner).
        rewrite <- Howner.
        destruct (list_getitem_in_range hunk_content_by_line i)
          as (line & _ & ->); [lia|]. split; [done|by eexists].
      * rewrite !scan_pairs_free by (done || by rewrite <- Howner).
        apply (IH (visited ++ [(label, i)])); [done| |done|done].
        intros k Hk. rewrite !owner_set by done.
        case_decide; [done|by apply Hsame].
    + rewrite filter_cons_False by done.
      assert (owner line_labels (Z.to_nat i) = None) as Hnone.
      { destruct (owner line_labels (Z.to_nat i)) as [l|] eqn:Howner; [|done].
        exfalso. apply Hinv in Howner. rewrite Z2Nat.id in Howner by done.
        apply (list_elem_of_fmap_2 snd) in Howner. cbn [snd] in Howner.
        rewrite fmap_app, fmap_cons, filter_app in Hnd.
        rewrite filter_cons_True in Hnd by (cbn; lia).
        apply NoDup_app in Hnd as (_ & Hnd & _).
        apply (Hnd i); [|left]. apply list_elem_of_filter. split; [lia|done]. }
      rewrite scan_pairs_free by (done || by rewrite Hnone).
      apply (IH (visited ++ [(label, i)])); [done| |done|done].
      intros k Hk. rewrite owner_set by done.
      case_decide; [lia|by apply Hsame].
Qed.

End Trim.

Lemma pairs_within_content (hunk : Hunk) :
  pairs (lines_verified (within_content hunk))
  = filter (λ p, p.2 < Z.of_nat (length (splitlines (content hunk))))
      (pairs (lines_verified hunk)).
Proof.
  unfold within_content. cbn [lines_verified content].
  induction (lines_verified hunk) as [|[label offs] items IH]; [done|].
  unfold pairs in *. cbn [fmap list_fmap mbind list_bind fst snd].
  rewrite filter_app. f_equal; [|apply IH].
  clear. induction offs as [|i offs IH]; [done|].
  cbn [fmap list_fmap]. rewrite filter_cons.
  rewrite (filter_cons _ (label, i)). cbn [snd].
  case_decide; cbn [fmap list_fmap]; by rewrite IH.
Qed.

Lemma offsets_within_content (hunk : Hunk) (P : Z -> Prop) :
  Forall P (offsets hunk) -> Forall P (offsets (within_content hunk)).
Proof.
  unfold offsets. rewrite pairs_within_content, !Forall_forall.
  intros Hall i (p & -> & Hp)%list_elem_of_fmap.
  apply list_elem_of_filter in Hp as [_ Hp].
  apply Hall. by apply list_elem_of_fmap_2.
Qed.

(** The hunks with and without the offsets beyond their content give the
    same computation, which returns. *)
Lemma has_tangled_lines_trim (hunks : list Hunk) (commit_hash : string) :
  Forall (λ hunk,
            Forall (λ i, 0 <= i) (offsets hunk)
            ∧ NoDup (filter
                       (λ i, Z.of_nat (length (splitlines (content hunk))) <= i)
                       (offsets hunk))) hunks ->
  ListTangledCommits.has_tangled_lines hunks commit_hash
  = ListTangledCommits.has_tangled_lines (within_content <$> hunks)
      commit_hash
  ∧ ∃ b, (ListTangledCommits.has_tangled_lines hunks commit_hash).2 = Ok b.
Proof.
  induction 1 as [|hunk hunks [Hpos Hnd] _ [IH [b IHb]]];
    [split; [done|by eexists]|].
  cbn [fmap list_fmap ListTangledCommits.has_tangled_lines].
  rewrite !scan_labels_pairs, pairs_within_content.
  change (content (within_content hunk)) with (content hunk).
  rewrite Forall_forall in Hpos.
  destruct (scan_pairs_trim commit_hash (splitlines (content hunk))
              (pairs (lines_verified hunk)) [] [] [])
    as [Hanswer [r Hr]]; [|done| |done|].
  { intros k l. unfold owner. by rewrite lookup_nil. }
  { intros p Hp. apply Hpos. by apply (list_elem_of_fmap_2 snd) in Hp. }
  rewrite <- IH.
  rewrite (answer_bind _ _ _ Hanswer). split; [done|].
  rewrite <- (answer_bind _ _ _ Hanswer).
  destruct (scan_pairs commit_hash (splitlines (content hunk))
              (pairs (lines_verified hunk)) []) as [t [[l|b']|e]];
    [|rewrite bind_ok; by eexists|done].
  rewrite bind_ok. cbn [snd]. by exists b.
Qed.

(** C3, as amended. Let [line_labels] be able to grow to [capacity] elements.
    For hunks whose verified offsets are all non-negative and below
    [capacity], and in which no offset at or beyond the number of content
    lines is listed twice within a hunk, [has_tangled_lines] returns a
    boolean in both scripts; the boolean and the lines printed (the dump of
    [list_tangled_lines.py] aside) are those of the same hunks with the
    offsets at or beyond the content left out. Such offsets change neither
    the detection nor the report. *)
Theorem single_offsets_beyond_content_change_nothing
    (capacity : Z) (hunks : list Hunk) (commit_hash : string) :
  Forall (λ hunk,
            Forall (λ i, 0 <= i < capacity) (offsets hunk)
            ∧ NoDup (filter
                       (λ i, Z.of_nat (length (splitlines (content hunk))) <= i)
                       (offsets hunk))) hunks ->
  ∃ b,
    (ListTangledCommits.has_tangled_lines_within capacity hunks
       commit_hash).2 = Ok b
    ∧ ListTangledCommits.has_tangled_lines_within capacity hunks commit_hash
      = ListTangledCommits.has_tangled_lines_within capacity
          (within_content <$> hunks) commit_hash
    ∧ same_up_to_dump
        (ListTangledLines.has_tangled_lines_within capacity hunks commit_hash)
        (ListTangledCommits.has_tangled_lines_within capacity hunks
           commit_hash)
    ∧ same_up_to_dump
        (ListTangledLines.has_tangled_lines_within capacity
           (within_content <$> hunks) commit_hash)
        (ListTangledCommits.has_tangled_lines_within capacity hunks
           commit_hash).
Proof.
  intros Hhunks.
  assert (Forall (λ hunk, Forall (λ i, i < capacity) (offsets hunk)) hunks)
    as Hbelow.
  { eapply Forall_impl; [exact Hhunks|]. intros hunk [Hoffs _].
    eapply Forall_impl; [exact Hoffs|]. cbn. lia. }
  assert (Forall (λ hunk, Forall (λ i, i < capacity) (offsets hunk))
            (within_content <$> hunks)) as Hbelow'.
  { apply Forall_fmap. eapply Forall_impl; [exact Hbelow|].
    intros hunk Hoffs. by apply offsets_within_content. }
  rewrite !commits_has_tangled_lines_within_below by done.
  rewrite !lines_has_tangled_lines_within_below by done.
  destruct (has_tangled_lines_trim hunks commit_hash) as [Htrim [b Hb]].
  { eapply Forall_impl; [exact Hhunks|]. intros hunk [Hoffs Hnd].
    split; [|done]. eapply Forall_impl; [exact Hoffs|]. cbn. lia. }
  exists b. split; [done|]. split; [done|].
  split; [apply has_tangled_lines_same|].
  rewrite Htrim. apply has_tangled_lines_same.
Qed.

(** ** More on the line detector, with the memory limit *)

(** X1. Let [line_labels] be able to grow to [capacity] elements. Hunks
    whose offsets are non-negative and below [capacity], none of them listed
    twice, are passed over without a trace by
    [list_tangled_commits.has_tangled_lines]: the computation is that of the
    hunks after them, whether or not the offsets lie within the content. *)
Theorem hunks_without_repeated_offsets_are_passed_over_within
    (capacity : Z) (clean rest : list Hunk) (commit_hash : string) :
  Forall (λ hunk,
            Forall (λ i, 0 <= i < capacity) (offsets hunk)
            ∧ NoDup (offsets hunk)) clean ->
  ListTangledCommits.has_tangled_lines_within capacity (clean ++ rest)
    commit_hash
  = ListTangledCommits.has_tangled_lines_within capacity rest commit_hash.
Proof.
  induction 1 as [|hunk clean [Hoffs Hnd] _ IH]; [done|].
  cbn [app ListTangledCommits.has_tangled_lines_within].
  rewrite commits_scan_labels_within_below.
  2:{ eapply Forall_impl; [exact Hoffs|]. cbn. lia. }
  rewrite scan_labels_pairs. rewrite Forall_forall in Hoffs.
  destruct (scan_pairs_prefix commit_hash (splitlines (content hunk))
              (pairs (lines_verified hunk)) [] [] [])
    as (line_labels & _ & Hscan).
  - intros k l. unfold owner. rewrite lookup_nil. cbn. split; [done|].
    by intros ?%elem_of_nil.
  - done.
  - intros p Hp. apply (list_elem_of_fmap_2 snd) in Hp.
    by destruct (Hoffs _ Hp).
  - rewrite app_nil_r in Hscan. rewrite Hscan. cbn [scan_pairs].
    by rewrite bind_ret.
Qed.

Section ShapeWithin.

Variables (capacity : Z) (commit_hash : string).

Abbreviation ends := (loop_ends commit_hash).

Lemma scan_offsets_within_ends (hunk_content_by_line : list string)
    (label : string) (offs : list Z) (line_labels : list (option string)) :
  ends (ListTangledCommits.scan_offsets_within capacity commit_hash
          hunk_content_by_line label offs line_labels).
Proof.
  revert line_labels. induction offs as [|i offs IH]; intros line_labels.
  - left. by eexists.
  - cbn [ListTangledCommits.scan_offsets_within].
    destruct (getitem_within_cases capacity line_labels i)
      as [(o & l1 & ->)|[->| ->]];
      [|right; by left|right; right; by left].
    rewrite bind_lift_ok. destruct (truthy o) eqn:Ho.
    + destruct (list_getitem_cases hunk_content_by_line i)
        as [[line ->]| ->]; [|right; by left].
      right. right. right. destruct o as [a|]; [|done].
      exists line, a, label. split; [done|]. by intros ->.
    + destruct (setitem_within_cases capacity l1 i label)
        as [[l2 ->]|[->| ->]];
        [|right; by left|right; right; by left].
      rewrite bind_lift_ok. apply IH.
Qed.

Lemma scan_labels_within_ends (hunk_content_by_line : list string)
    (items : list (string * list Z)) (line_labels : list (option string)) :
  ends (ListTangledCommits.scan_labels_within capacity commit_hash
          hunk_content_by_line items line_labels).
Proof.
  revert line_labels.
  induction items as [|[label offs] items IH]; intros line_labels.
  - left. by eexists.
  - cbn [ListTangledCommits.scan_labels_within].
    destruct (scan_offsets_within_ends hunk_content_by_line label offs
                line_labels)
      as [[l ->]|[->|[->|(line & a & b & -> & Ha)]]].
    + rewrite bind_nil_ok. apply IH.
    + right. by left.
    + right. right. by left.
    + right. right. right. by exists line, a, b.
Qed.

End ShapeWithin.

(** X2. Let [line_labels] be able to grow to [capacity] elements.
    [list_tangled_commits.has_tangled_lines] prints only when it returns
    true, and then exactly two lines: on every input it returns false,
    raises [IndexError] or raises [MemoryError], having printed nothing, or
    it returns true having printed one line of content and two labels, the
    first of them a non-empty string. *)
Theorem has_tangled_lines_within_prints_only_when_true
    (capacity : Z) (hunks : list Hunk) (commit_hash : string) :
  ListTangledCommits.has_tangled_lines_within capacity hunks commit_hash
  = ([], Ok false)
  ∨ ListTangledCommits.has_tangled_lines_within capacity hunks commit_hash
    = ([], Raise IndexError)
  ∨ ListTangledCommits.has_tangled_lines_within capacity hunks commit_hash
    = ([], Raise MemoryError)
  ∨ ∃ line a b,
      ListTangledCommits.has_tangled_lines_within capacity hunks commit_hash
      = ([Stdout (TangledLineIn commit_hash line);
          Stdout (FoundLabel (Some a) b)], Ok true)
      ∧ a ≠ "".
Proof.
  induction hunks as [|hunk hunks IH]; [by left|].
  cbn [ListTangledCommits.has_tangled_lines_within].
  destruct (scan_labels_within_ends capacity commit_hash
              (splitlines (content hunk)) (lines_verified hunk) [])
    as [[l ->]|[->|[->|(line & a & b & -> & Ha)]]].
  - by rewrite bind_nil_ok.
  - right. by left.
  - right. right. by left.
  - right. right. right. by exists line, a, b.
Qed.

Section WithinOnExamples.

Import Examples.

Local Ltac by_decision := apply (bool_decide_unpack _); vm_compute; exact I.

(** Offset 7 of a three-line hunk, listed once, changes nothing. *)
Lemma single_offset_beyond_content_changes_nothing :
  ∃ b,
    (ListTangledCommits.has_tangled_lines_within 1000000
       [hunk_one_beyond; hunk_two_on_a_line] "c100").2 = Ok b
    ∧ ListTangledCommits.has_tangled_lines_within 1000000
        [hunk_one_beyond; hunk_two_on_a_line] "c100"
      = ListTangledCommits.has_tangled_lines_within 1000000
          (within_content <$> [hunk_one_beyond; hunk_two_on_a_line]) "c100"
    ∧ same_up_to_dump
        (ListTangledLines.has_tangled_lines_within 1000000
           [hunk_one_beyond; hunk_two_on_a_line] "c100")
        (ListTangledCommits.has_tangled_lines_within 1000000
           [hunk_one_beyond; hunk_two_on_a_line] "c100")
    ∧ same_up_to_dump
        (ListTangledLines.has_tangled_lines_within 1000000
           (within_content <$> [hunk_one_beyond; hunk_two_on_a_line]) "c100")
        (ListTangledCommits.has_tangled_lines_within 1000000
           [hunk_one_beyond; hunk_two_on_a_line] "c100").
Proof.
  apply (single_offsets_beyond_content_change_nothing 1000000
           [hunk_one_beyond; hunk_two_on_a_line] "c100").
  by_decision.
Defined.

(** An offset that [line_labels] cannot grow to ends the detection with
    [MemoryError], in both scripts, before anything is printed. *)
Example offset_beyond_capacity_raises :
  ListTangledCommits.has_tangled_lines_within 1000000
    [hunk_of 12%N [("bugfix", [9223372036854775807])]] "c100"
  = ([], Raise MemoryError)
  ∧ ListTangledLines.has_tangled_lines_within 1000000
      [hunk_of 12%N [("bugfix", [9223372036854775807])]] "c100"
    = ([], Raise MemoryError).
Proof. split; by vm_compute. Qed.

(** A hunk with an offset beyond its content, listed once, is passed over. *)
Lemma hunk_with_single_offsets_is_passed_over :
  ListTangledCommits.has_tangled_lines_within 1000000
    [hunk_one_beyond; hunk_two_on_a_line] "c100"
  = ListTangledCommits.has_tangled_lines_within 1000000
      [hunk_two_on_a_line] "c100".
Proof.
  apply (hunks_without_repeated_offsets_are_passed_over_within 1000000
           [hunk_one_beyond] [hunk_two_on_a_line] "c100").
  by_decision.
Defined.

End WithinOnExamples.
